(** * prospero / internal/mcp: the MCP prompt server

    A shallow embedding of the Go package [internal/mcp]: the prompt
    registry and the default template handler (prompts.go), the JSON-RPC
    dispatcher and the line transport (server.go), the HTTP transport
    (http.go) and the message types (types.go).

    Go values are modelled as follows.
    - [string] is a sequence of bytes: Rocq's [string].
    - [int] error codes are [Z].
    - [interface{}] holding a decoded JSON document is the inductive
      [any]; the nil interface is [ANil].
    - [map[string]T] is stdpp's [gmap string T]; a nil map reads like the
      empty one.
    - [error] is the inductive [error]; the nil error is [None].
    - Methods that mutate their receiver return the new receiver. *)

From stdpp Require Import base option list strings gmap fin_maps.
From Stdlib Require Import ZArith QArith.QArith_base.

Set Default Proof Using "Type".
Open Scope Z_scope.

(** ** Runtime values *)

(** What [encoding/json] stores in an [interface{}]: nil for null, bool,
    float64 (never inspected by this package, carried as a rational),
    string, []interface{} and map[string]interface{}. *)
#[local] Unset Elimination Schemes.
Inductive any : Type :=
| ANil
| ABool (b : bool)
| ANumber (q : Q)
| AString (s : string)
| AArray (l : list any)
| AObject (fields : list (string * any)).
#[local] Set Elimination Schemes.

(** [v == nil] on an interface value. *)
Definition isNil (v : any) : bool :=
  match v with
  | ANil => true
  | _ => false
  end.

(** Go errors. The sentinels [io.EOF], [context.Canceled] and
    [context.DeadlineExceeded] are compared by identity in the source, so
    each is a constructor of its own. *)
Inductive error : Type :=
| errorString (msg : string)
| wrapError (msg : string) (err : error)
| io_EOF
| context_Canceled
| context_DeadlineExceeded.

(** [err.Error()] *)
Definition Error (e : error) : string :=
  match e with
  | errorString msg => msg
  | wrapError msg _ => msg
  | io_EOF => "EOF"
  | context_Canceled => "context canceled"
  | context_DeadlineExceeded => "context deadline exceeded"
  end.

(** [err == io.EOF] *)
Definition is_io_EOF (e : error) : bool :=
  match e with
  | io_EOF => true
  | _ => false
  end.

(** [fmt.Errorf(prefix + "%s", arg)] *)
Definition Errorf_s (prefix arg : string) : error :=
  errorString (prefix +:+ arg).

(** [fmt.Errorf(prefix + "%w", err)] *)
Definition Errorf_w (prefix : string) (err : error) : error :=
  wrapError (prefix +:+ Error err) err.

(** A [context.Context] as one observation of it: [Err] is [ctx.Err()],
    which is non-nil exactly when the channel [ctx.Done()] is closed. *)
Module Context.
Record t : Type := mk { Err : option error }.

(** Whether a receive from [ctx.Done()] is ready. *)
Definition Done (ctx : t) : bool :=
  match Err ctx with
  | Some _ => true
  | None => false
  end.
End Context.

(** ** types.go *)

Module JSONRPCRequest.
Record t : Type := mk {
  JSONRPC : string;
  ID : any;
  Method : string;
  Params : any
}.
End JSONRPCRequest.

Module JSONRPCError.
Record t : Type := mk {
  Code : Z;
  Message : string;
  Data : any
}.
End JSONRPCError.

Module RootsCapability.
Record t : Type := mk { ListChanged : bool }.
End RootsCapability.

Module SamplingCapability.
Record t : Type := mk { }.
End SamplingCapability.

Module PromptsCapability.
Record t : Type := mk { ListChanged : bool }.
End PromptsCapability.

Module ToolsCapability.
Record t : Type := mk { ListChanged : bool }.
End ToolsCapability.

Module Capabilities.
Record t : Type := mk {
  Roots : option RootsCapability.t;
  Sampling : option SamplingCapability.t
}.
End Capabilities.

Module ServerCapabilities.
Record t : Type := mk {
  Prompts : option PromptsCapability.t;
  Tools : option ToolsCapability.t
}.
End ServerCapabilities.

Module ClientInfo.
Record t : Type := mk { Name : string; Version : string }.
End ClientInfo.

Module ServerInfo.
Record t : Type := mk { Name : string; Version : string }.
End ServerInfo.

Module InitializeParams.
Record t : Type := mk {
  ProtocolVersion : string;
  Capabilities : Capabilities.t;
  ClientInfo : ClientInfo.t
}.
End InitializeParams.

Module InitializeResult.
Record t : Type := mk {
  ProtocolVersion : string;
  Capabilities : ServerCapabilities.t;
  ServerInfo : ServerInfo.t
}.
End InitializeResult.

Module PromptArgument.
Record t : Type := mk {
  Name : string;
  Description : string;
  Required : bool
}.
End PromptArgument.

Module Prompt.
Record t : Type := mk {
  Name : string;
  Description : string;
  Arguments : list PromptArgument.t
}.
End Prompt.

Module ListPromptsResult.
Record t : Type := mk {
  Prompts : list Prompt.t;
  NextCursor : string
}.
End ListPromptsResult.

Module GetPromptParams.
Record t : Type := mk {
  Name : string;
  Arguments : gmap string string
}.

(** [var params GetPromptParams] *)
Definition zero : t := mk EmptyString ∅.
End GetPromptParams.

Module MessageContent.
Record t : Type := mk { Type_ : string; Text : string }.
End MessageContent.

Module PromptMessage.
Record t : Type := mk { Role : string; Content : MessageContent.t }.
End PromptMessage.

Module GetPromptResult.
Record t : Type := mk {
  Description : string;
  Messages : list PromptMessage.t
}.
End GetPromptResult.

(** The dynamic values this package stores in [JSONRPCResponse.Result].
    [ResultGetPrompt None] is the nil pointer to a [GetPromptResult] that
    a handler may return together with a nil error. *)
Inductive ResultValue : Type :=
| ResultInitialize (r : InitializeResult.t)
| ResultListPrompts (r : ListPromptsResult.t)
| ResultGetPrompt (r : option GetPromptResult.t).

Module JSONRPCResponse.
Record t : Type := mk {
  JSONRPC : string;
  ID : any;
  Result : option ResultValue;
  Error : option JSONRPCError.t
}.
End JSONRPCResponse.

(** ** The Go runtime and encoding/json, as used by this package *)

(** [for k, v := range m] visits every entry of [m] once, in an order the
    language leaves unspecified. *)
Class MapRange : Type := {
  rangeOrder : ∀ V : Type, gmap string V → list (string * V);
  rangeOrder_perm : ∀ (V : Type) (m : gmap string V),
    rangeOrder V m ≡ₚ map_to_list m
}.
Arguments rangeOrder {_ _} _.

(** The decoders of [encoding/json] the package calls; [None] is a non-nil
    error.
    - [Unmarshal_Request body] is [json.Unmarshal(body, &request)] on a
      zero [JSONRPCRequest];
    - [Unmarshal_Batch body] is [json.Unmarshal(body, &batch)] on a nil
      [[]JSONRPCRequest];
    - [Decode_InitializeParams v] and [Decode_GetPromptParams v] are
      [json.Marshal(v)] followed by [json.Unmarshal(paramBytes, &params)]
      on a zero struct, for a non-nil [v]. *)
Class EncodingJSON : Type := {
  Unmarshal_Request : string → option JSONRPCRequest.t;
  Unmarshal_Batch : string → option (list JSONRPCRequest.t);
  Decode_InitializeParams : any → option InitializeParams.t;
  Decode_GetPromptParams : any → option GetPromptParams.t
}.

(** ** prompts.go *)

(** [type PromptHandler func(ctx, args)], returning a pointer to a
    [GetPromptResult] ([None] when nil) and an error. A handler is taken
    to be a function of its two arguments. *)
Abbreviation PromptHandler :=
  (∀ (ctx : Context.t) (args : gmap string string),
     option GetPromptResult.t * option error)%type (only parsing).

Module PromptRegistry.
Record t : Type := mk {
  prompts : gmap string Prompt.t;
  handlers : gmap string PromptHandler
}.
End PromptRegistry.

Module ArgumentDefinition.
Record t : Type := mk {
  Name : string;
  Description : string;
  Required : bool
}.
End ArgumentDefinition.

Module PromptDefinition.
Record t : Type := mk {
  Name : string;
  Description : string;
  Arguments : list ArgumentDefinition.t;
  Content : string
}.
End PromptDefinition.

Definition NewPromptRegistry : PromptRegistry.t :=
  PromptRegistry.mk ∅ ∅.

Definition Register (r : PromptRegistry.t) (prompt : Prompt.t)
    (handler : PromptHandler) : PromptRegistry.t :=
  PromptRegistry.mk
    (<[Prompt.Name prompt := prompt]> (PromptRegistry.prompts r))
    (<[Prompt.Name prompt := handler]> (PromptRegistry.handlers r)).

(** [List] (named [ListPrompts] here, [List] being a library module). *)
Definition ListPrompts {range : MapRange} (r : PromptRegistry.t) : list Prompt.t :=
  (rangeOrder (PromptRegistry.prompts r)).*2.

Definition Execute (r : PromptRegistry.t) (ctx : Context.t) (name : string)
    (args : gmap string string) : option GetPromptResult.t * option error :=
  match PromptRegistry.handlers r !! name with
  | None => (None, Some (Errorf_s "prompt not found: " name))
  | Some handler => handler ctx args
  end.

Definition ToPrompt (d : PromptDefinition.t) : Prompt.t :=
  Prompt.mk (PromptDefinition.Name d) (PromptDefinition.Description d)
    (map (λ arg, PromptArgument.mk (ArgumentDefinition.Name arg)
                   (ArgumentDefinition.Description arg)
                   (ArgumentDefinition.Required arg))
         (PromptDefinition.Arguments d)).

(** [strings.HasPrefix(s, prefix)] *)
Fixpoint HasPrefix (s prefix : string) : bool :=
  match prefix, s with
  | EmptyString, _ => true
  | String _ _, EmptyString => false
  | String p prefix', String c s' =>
      if decide (p = c) then HasPrefix s' prefix' else false
  end.

(** The scan of [strings.ReplaceAll] for a non-empty [old]: [skip] counts
    the bytes of the current match that are still to be dropped. *)
Fixpoint replaceFrom (skip : nat) (s old new : string) : string :=
  match s with
  | EmptyString => EmptyString
  | String c s' =>
      match skip with
      | S skip' => replaceFrom skip' s' old new
      | O =>
          if HasPrefix s old
          then new +:+ replaceFrom (String.length old - 1) s' old new
          else String c (replaceFrom O s' old new)
      end
  end.

(** [strings.ReplaceAll(s, old, new)]: every non-overlapping instance of
    [old], leftmost first, becomes [new]. The package only calls it with
    a placeholder, which is never empty; the empty [old] (where Go inserts
    [new] around every UTF-8 sequence) is outside this model and leaves
    [s] as it is. *)
Definition ReplaceAll (s old new : string) : string :=
  match old with
  | EmptyString => s
  | String _ _ => replaceFrom O s old new
  end.

(** [fmt.Sprintf("{{%s}}", name)] *)
Definition placeholder (name : string) : string :=
  "{{" +:+ name +:+ "}}".

(** The loop of [CreateHandler] over the entries of [args], in the order
    the [range] statement happens to visit them. *)
Definition substitute (content : string) (entries : list (string * string))
    : string :=
  foldl (λ content '(name, value), ReplaceAll content (placeholder name) value)
        content entries.

(** [CreateHandler] returns a [PromptHandler] that substitutes arguments
    in the content. *)
Definition CreateHandler {range : MapRange} (d : PromptDefinition.t) : PromptHandler :=
  λ ctx args,
    if decide (PromptDefinition.Content d = EmptyString)
    then (None, Some (Errorf_s "no content available for prompt: "
                               (PromptDefinition.Name d)))
    else
      let content := substitute (PromptDefinition.Content d) (rangeOrder args) in
      (Some (GetPromptResult.mk (PromptDefinition.Description d)
               [PromptMessage.mk "user" (MessageContent.mk "text" content)]),
       None).

(** ** server.go *)

Module Server.
Record t : Type := mk {
  name : string;
  version : string;
  promptRegistry : PromptRegistry.t;
  initialized : bool;
  protocolVersion : string
}.
End Server.

Definition NewServer (name version : string) : Server.t :=
  Server.mk name version NewPromptRegistry false "2025-03-26".

Definition RegisterPrompt (s : Server.t) (prompt : Prompt.t)
    (handler : PromptHandler) : Server.t :=
  Server.mk (Server.name s) (Server.version s)
    (Register (Server.promptRegistry s) prompt handler)
    (Server.initialized s) (Server.protocolVersion s).

Definition errorResponse (id : any) (code : Z) (message : string) (data : any)
    : JSONRPCResponse.t :=
  JSONRPCResponse.mk "2.0" id None (Some (JSONRPCError.mk code message data)).

Section Dispatcher.
Context {range : MapRange} {json : EncodingJSON}.

Definition handleInitialize (s : Server.t) (request : JSONRPCRequest.t)
    : JSONRPCResponse.t :=
  let respond :=
    JSONRPCResponse.mk "2.0" (JSONRPCRequest.ID request)
      (Some (ResultInitialize
         (InitializeResult.mk (Server.protocolVersion s)
            (ServerCapabilities.mk (Some (PromptsCapability.mk false)) None)
            (ServerInfo.mk (Server.name s) (Server.version s)))))
      None in
  if isNil (JSONRPCRequest.Params request) then respond
  else
    match Decode_InitializeParams (JSONRPCRequest.Params request) with
    | None =>
        errorResponse (JSONRPCRequest.ID request) (-32602) "Invalid params" ANil
    | Some _ => respond
    end.

Definition handlePromptsList (s : Server.t) (request : JSONRPCRequest.t)
    : JSONRPCResponse.t :=
  let prompts := ListPrompts (Server.promptRegistry s) in
  JSONRPCResponse.mk "2.0" (JSONRPCRequest.ID request)
    (Some (ResultListPrompts (ListPromptsResult.mk prompts EmptyString)))
    None.

Definition handlePromptsGet (s : Server.t) (ctx : Context.t)
    (request : JSONRPCRequest.t) : JSONRPCResponse.t :=
  let execute (params : GetPromptParams.t) :=
    match Execute (Server.promptRegistry s) ctx
            (GetPromptParams.Name params) (GetPromptParams.Arguments params) with
    | (_, Some err) =>
        errorResponse (JSONRPCRequest.ID request) (-32603) (Error err) ANil
    | (result, None) =>
        JSONRPCResponse.mk "2.0" (JSONRPCRequest.ID request)
          (Some (ResultGetPrompt result)) None
    end in
  if isNil (JSONRPCRequest.Params request) then execute GetPromptParams.zero
  else
    match Decode_GetPromptParams (JSONRPCRequest.Params request) with
    | None =>
        errorResponse (JSONRPCRequest.ID request) (-32602) "Invalid params" ANil
    | Some params => execute params
    end.

(** [s.initialized = true] *)
Definition setInitialized (s : Server.t) : Server.t :=
  Server.mk (Server.name s) (Server.version s) (Server.promptRegistry s)
    true (Server.protocolVersion s).

(** The server after the call, and the response ([None] is the nil
    pointer). *)
Definition handleRequest (s : Server.t) (ctx : Context.t)
    (request : JSONRPCRequest.t) : Server.t * option JSONRPCResponse.t :=
  let method := JSONRPCRequest.Method request in
  if decide (method = "initialize") then
    (s, Some (handleInitialize s request))
  else if decide (method = "initialized") then
    (setInitialized s, None)
  else if decide (method = "prompts/list") then
    if negb (Server.initialized s)
    then (s, Some (errorResponse (JSONRPCRequest.ID request) (-32002)
                     "Server not initialized" ANil))
    else (s, Some (handlePromptsList s request))
  else if decide (method = "prompts/get") then
    if negb (Server.initialized s)
    then (s, Some (errorResponse (JSONRPCRequest.ID request) (-32002)
                     "Server not initialized" ANil))
    else (s, Some (handlePromptsGet s ctx request))
  else
    (s, Some (errorResponse (JSONRPCRequest.ID request) (-32601)
                "Method not found" ANil)).
End Dispatcher.

(** *** The line transport *)

(** One call of [scanner.Scan()]: [ScanLine line] is [true] with
    [scanner.Bytes() = line]; [ScanStop err] is [false] with
    [scanner.Err() = err]. *)
Inductive ScanResult : Type :=
| ScanLine (line : string)
| ScanStop (err : option error).

(** What one pass through the body of the [for] loop of [Run] does: go
    round again, with the server as it now is and the responses handed to
    [encoder.Encode], or return. *)
Inductive Iteration : Type :=
| Continue (s : Server.t) (written : list JSONRPCResponse.t)
| Return (err : option error).

Section LineTransport.
Context {range : MapRange} {json : EncodingJSON}.

(** [sendError]: the response it encodes. *)
Definition sendError (id : any) (code : Z) (message : string) (data : any)
    : list JSONRPCResponse.t :=
  [errorResponse id code message data].

(** The body of the loop. [ctx] is the context as the [select] finds it
    and [scan] the outcome of the call of [scanner.Scan()], made only
    when the context is not done. *)
Definition iteration (s : Server.t) (ctx : Context.t) (scan : ScanResult)
    : Iteration :=
  if Context.Done ctx then Return (Context.Err ctx)
  else
    match scan with
    | ScanStop (Some err) =>
        if negb (is_io_EOF err)
        then Return (Some (Errorf_w "error reading from stdin: " err))
        else Return None
    | ScanStop None => Return None
    | ScanLine line =>
        if decide (String.length line = 0%nat) then Continue s []
        else
          match Unmarshal_Request line with
          | None => Continue s (sendError ANil (-32700) "Parse error" ANil)
          | Some request =>
              let '(s', response) := handleRequest s ctx request in
              match response with
              | Some r => Continue s' [r]
              | None => Continue s' []
              end
          end
    end.

(** The loop from its [i]-th pass on: [ctx i] is the context as the
    [i]-th pass observes it, [stdin i] the outcome of the [i]-th call of
    [scanner.Scan()], [out] what has been encoded to standard output so
    far. The result is the server, the output and the error returned;
    [None] when [fuel] passes do not reach a [return]. *)
Fixpoint Run_from (fuel : nat) (ctx : nat → Context.t)
    (stdin : nat → ScanResult) (i : nat) (s : Server.t)
    (out : list JSONRPCResponse.t)
    : option (Server.t * list JSONRPCResponse.t * option error) :=
  match fuel with
  | O => None
  | S fuel' =>
      match iteration s (ctx i) (stdin i) with
      | Return err => Some (s, out, err)
      | Continue s' written =>
          Run_from fuel' ctx stdin (S i) s' (out ++ written)
      end
  end.

Definition Run (fuel : nat) (s : Server.t) (ctx : nat → Context.t)
    (stdin : nat → ScanResult)
    : option (Server.t * list JSONRPCResponse.t * option error) :=
  Run_from fuel ctx stdin O s [].
End LineTransport.

(** ** http.go *)

(** What a handler writes to the body of the HTTP response. *)
Inductive Written : Type :=
| WrittenText (text : string)
| WrittenResponse (response : JSONRPCResponse.t)
| WrittenResponses (responses : list JSONRPCResponse.t).

Module ResponseWriter.
(** [Code] is the status passed to the first [WriteHeader], explicit or
    implied by the first write; [Body] what has been written. *)
Record t : Type := mk {
  Header : gmap string string;
  Code : option Z;
  Body : list Written
}.

(** [httptest.NewRecorder()] *)
Definition new : t := mk ∅ None [].

(** [w.Header().Set(key, value)] *)
Definition Set_ (key value : string) (w : t) : t :=
  mk (<[key := value]> (Header w)) (Code w) (Body w).

(** [w.WriteHeader(code)] *)
Definition WriteHeader (code : Z) (w : t) : t :=
  match Code w with
  | Some _ => w
  | None => mk (Header w) (Some code) (Body w)
  end.

(** [w.Write(data)], which sends the header with status 200 first when
    none was sent. *)
Definition Write (data : Written) (w : t) : t :=
  let w' := WriteHeader 200 w in
  mk (Header w') (Code w') (Body w' ++ [data]).

(** The status the client receives once the handler has returned. *)
Definition StatusCode (w : t) : Z :=
  default 200 (Code w).
End ResponseWriter.

Module Request.
(** [Body] is the outcome of [io.ReadAll(r.Body)]. *)
Record t : Type := mk {
  Method : string;
  Body : string + error;
  Ctx : Context.t
}.
End Request.

(** The string of one byte. *)
Definition byteString (code : nat) : string :=
  String (Ascii.ascii_of_nat code) EmptyString.

(** [http.Error(w, msg, code)], which ends the message with a newline. *)
Definition http_Error (w : ResponseWriter.t) (msg : string) (code : Z)
    : ResponseWriter.t :=
  ResponseWriter.Write (WrittenText (msg +:+ byteString 10))
    (ResponseWriter.WriteHeader code
       (ResponseWriter.Set_ "X-Content-Type-Options" "nosniff"
          (ResponseWriter.Set_ "Content-Type" "text/plain; charset=utf-8" w))).

Section HTTPTransport.
Context {range : MapRange} {json : EncodingJSON}.

(** [handleSSEStream]: the headers, the flush that sends them, and then
    the wait for [r.Context().Done()], after which nothing is written. *)
Definition handleSSEStream (w : ResponseWriter.t) : ResponseWriter.t :=
  ResponseWriter.WriteHeader 200
    (ResponseWriter.Set_ "Connection" "keep-alive"
       (ResponseWriter.Set_ "Cache-Control" "no-cache"
          (ResponseWriter.Set_ "Content-Type" "text/event-stream" w))).

Definition sendJSONError (w : ResponseWriter.t) (id : any) (code : Z)
    (message : string) (data : any) : ResponseWriter.t :=
  ResponseWriter.Write (WrittenResponse (errorResponse id code message data))
    (ResponseWriter.WriteHeader 400
       (ResponseWriter.Set_ "Content-Type" "application/json" w)).

Definition handleSingleRequest (w : ResponseWriter.t) (s : Server.t)
    (ctx : Context.t) (request : JSONRPCRequest.t)
    : Server.t * ResponseWriter.t :=
  let '(s', response) := handleRequest s ctx request in
  if isNil (JSONRPCRequest.ID request) then
    (s', ResponseWriter.WriteHeader 202 w)
  else
    let w := ResponseWriter.Set_ "Content-Type" "application/json" w in
    match response with
    | Some r => (s', ResponseWriter.Write (WrittenResponse r) w)
    | None => (s', w)
    end.

(** One pass through the [range] loop of [handleBatchRequest]. *)
Definition batchStep (ctx : Context.t)
    (acc : Server.t * list JSONRPCResponse.t * bool)
    (request : JSONRPCRequest.t)
    : Server.t * list JSONRPCResponse.t * bool :=
  let '(s, responses, hasRequests) := acc in
  let '(s', response) := handleRequest s ctx request in
  if negb (isNil (JSONRPCRequest.ID request)) then
    match response with
    | Some r => (s', responses ++ [r], true)
    | None => (s', responses, true)
    end
  else (s', responses, hasRequests).

Definition handleBatchRequest (w : ResponseWriter.t) (s : Server.t)
    (ctx : Context.t) (batch : list JSONRPCRequest.t)
    : Server.t * ResponseWriter.t :=
  let '(s', responses, hasRequests) :=
    foldl (batchStep ctx) (s, [], false) batch in
  if negb hasRequests then
    (s', ResponseWriter.WriteHeader 202 w)
  else
    (s', ResponseWriter.Write (WrittenResponses responses)
           (ResponseWriter.Set_ "Content-Type" "application/json" w)).

Definition handleJSONRPC (w : ResponseWriter.t) (s : Server.t)
    (r : Request.t) : Server.t * ResponseWriter.t :=
  match Request.Body r with
  | inr _ => (s, http_Error w "Failed to read request body" 400)
  | inl body =>
      match Unmarshal_Request body with
      | None =>
          match Unmarshal_Batch body with
          | None => (s, sendJSONError w ANil (-32700) "Parse error" ANil)
          | Some batch => handleBatchRequest w s (Request.Ctx r) batch
          end
      | Some request => handleSingleRequest w s (Request.Ctx r) request
      end
  end.

Definition HTTPHandler (s : Server.t) (w : ResponseWriter.t) (r : Request.t)
    : Server.t * ResponseWriter.t :=
  if decide (Request.Method r = "GET") then (s, handleSSEStream w)
  else if decide (Request.Method r = "POST") then handleJSONRPC w s r
  else (s, http_Error w "Method not allowed" 405).
End HTTPTransport.

(** ** Histories of calls *)

(** A call on the server's interface: a registration, or a message handed
    to the dispatcher by a transport. *)
Inductive Call : Type :=
| CallRegisterPrompt (prompt : Prompt.t) (handler : PromptHandler)
| CallHandleRequest (ctx : Context.t) (request : JSONRPCRequest.t).

Section Histories.
Context {range : MapRange} {json : EncodingJSON}.

Definition call (s : Server.t) (c : Call) : Server.t :=
  match c with
  | CallRegisterPrompt prompt handler => RegisterPrompt s prompt handler
  | CallHandleRequest ctx request => (handleRequest s ctx request).1
  end.

(** The server after the calls of [history], first to last. *)
Definition calls (s : Server.t) (history : list Call) : Server.t :=
  foldl call s history.

(** The server after dispatching the elements of [batch] in order. *)
Definition dispatchAll (s : Server.t) (ctx : Context.t)
    (batch : list JSONRPCRequest.t) : Server.t :=
  foldl (λ s request, (handleRequest s ctx request).1) s batch.

(** The responses the dispatcher gives to the id-bearing elements of
    [batch] when the elements are dispatched in order from [s]. *)
Fixpoint answers (s : Server.t) (ctx : Context.t)
    (batch : list JSONRPCRequest.t) : list JSONRPCResponse.t :=
  match batch with
  | [] => []
  | request :: batch' =>
      let '(s', response) := handleRequest s ctx request in
      match response with
      | Some r =>
          if isNil (JSONRPCRequest.ID request) then answers s' ctx batch'
          else r :: answers s' ctx batch'
      | None => answers s' ctx batch'
      end
  end.
End Histories.

(** Whether a call dispatches a message whose method is [initialized]. *)
Definition sendsInitialized (c : Call) : bool :=
  match c with
  | CallRegisterPrompt _ _ => false
  | CallHandleRequest _ request =>
      bool_decide (JSONRPCRequest.Method request = "initialized")
  end.

(** Whether a call dispatches a message whose method is [initialize]. *)
Definition sendsInitialize (c : Call) : bool :=
  match c with
  | CallRegisterPrompt _ _ => false
  | CallHandleRequest _ request =>
      bool_decide (JSONRPCRequest.Method request = "initialize")
  end.

(** A message with an id. *)
Definition hasID (request : JSONRPCRequest.t) : bool :=
  negb (isNil (JSONRPCRequest.ID request)).

(** A message with an id whose method is not [initialized]. *)
Definition answered (request : JSONRPCRequest.t) : bool :=
  hasID request
  && negb (bool_decide (JSONRPCRequest.Method request = "initialized")).

(** The four methods the dispatcher knows. *)
Definition knownMethod (method : string) : bool :=
  bool_decide (method = "initialize")
  || bool_decide (method = "initialized")
  || bool_decide (method = "prompts/list")
  || bool_decide (method = "prompts/get").

(** The parameters [handlePromptsGet] passes on to the registry: the zero
    value when [params] is absent, what the decoder yields otherwise. *)
Definition promptParams {json : EncodingJSON} (request : JSONRPCRequest.t)
    : option GetPromptParams.t :=
  if isNil (JSONRPCRequest.Params request) then Some GetPromptParams.zero
  else Decode_GetPromptParams (JSONRPCRequest.Params request).

(** The template substitution as the specification words it: one pass
    over the content in which every occurrence of a placeholder of a
    supplied argument becomes that argument's value, and everything else,
    placeholders of other names included, is kept. *)
Fixpoint specSubstituteFrom (skip : nat) (content : string)
    (args : list (string * string)) : string :=
  match content with
  | EmptyString => EmptyString
  | String c content' =>
      match skip with
      | S skip' => specSubstituteFrom skip' content' args
      | O =>
          match List.find (λ arg, HasPrefix content (placeholder arg.1)) args with
          | Some (name, value) =>
              value +:+ specSubstituteFrom (String.length (placeholder name) - 1)
                          content' args
          | None => String c (specSubstituteFrom O content' args)
          end
      end
  end.

Definition specSubstitute (content : string) (args : gmap string string)
    : string :=
  specSubstituteFrom O content (map_to_list args).

(** ** Replacement, stated without reference to a scan *)

(** [old] occurs in [s] right after the prefix [a]. *)
Definition occursAt (old s a : string) : Prop :=
  ∃ b, s = a +:+ old +:+ b.

(** [ReplacedAll old new s r]: [r] is [s] with every non-overlapping
    occurrence of [old], leftmost first, replaced by [new]. Either [old]
    does not occur in [s], or [s] splits at the first occurrence of [old]
    and the replacement goes on behind it. *)
Inductive ReplacedAll (old new : string) : string → string → Prop :=
| ReplacedAll_none (s : string) :
    (∀ a, ¬ occursAt old s a) →
    ReplacedAll old new s s
| ReplacedAll_first (a b b' : string) :
    (∀ a', occursAt old (a +:+ old +:+ b) a' →
           (String.length a ≤ String.length a')%nat) →
    ReplacedAll old new b b' →
    ReplacedAll old new (a +:+ old +:+ b) (a +:+ new +:+ b').

(** [SubstitutedAll entries content text]: [text] comes from [content] by
    one replacement per entry, of the entry's placeholder by its value,
    the entries taken first to last and each replacement made in the text
    the earlier ones produced. *)
Inductive SubstitutedAll : list (string * string) → string → string → Prop :=
| SubstitutedAll_nil (content : string) :
    SubstitutedAll [] content content
| SubstitutedAll_cons (name value : string) entries (content content' text : string) :
    ReplacedAll (placeholder name) value content content' →
    SubstitutedAll entries content' text →
    SubstitutedAll ((name, value) :: entries) content text.

(** ** Instances used in the examples *)

(** The iteration order that follows stdpp's enumeration of the map, and
    the one that follows it backwards: two of the orders a [range] loop
    may take. *)
#[local] Instance enumerationOrder : MapRange := {|
  rangeOrder V m := map_to_list m;
  rangeOrder_perm V m := reflexivity _
|}.

#[local] Instance reverseOrder : MapRange := {|
  rangeOrder V m := reverse (map_to_list m);
  rangeOrder_perm V m := reverse_Permutation _
|}.

(** A decoder for JSON documents whose object keys are spelled as in the
    struct tags of types.go (encoding/json also accepts keys that differ
    from a tag in letter case only). As in encoding/json, an absent key or
    a null leaves the field at its zero value, unknown keys are ignored,
    and a value of the wrong JSON type is an error. *)
Module ExactKeyJSON.
Definition field (key : string) (fields : list (string * any)) : option any :=
  snd <$> List.find (λ kv, bool_decide (kv.1 = key)) fields.

Definition decodeString (v : option any) : option string :=
  match v with
  | None | Some ANil => Some EmptyString
  | Some (AString s) => Some s
  | Some _ => None
  end.

Definition decodeBool (v : option any) : option bool :=
  match v with
  | None | Some ANil => Some false
  | Some (ABool b) => Some b
  | Some _ => None
  end.

Definition decodeStringMap (v : option any) : option (gmap string string) :=
  match v with
  | None | Some ANil => Some ∅
  | Some (AObject fields) =>
      foldl (λ acc kv,
               m ← acc; s ← decodeString (Some kv.2); Some (<[kv.1 := s]> m))
            (Some ∅) fields
  | Some _ => None
  end.

Definition decodeGetPromptParams (v : any) : option GetPromptParams.t :=
  match v with
  | ANil => Some GetPromptParams.zero
  | AObject fields =>
      name ← decodeString (field "name" fields);
      arguments ← decodeStringMap (field "arguments" fields);
      Some (GetPromptParams.mk name arguments)
  | _ => None
  end.

Definition decodeRoots (v : option any) : option (option RootsCapability.t) :=
  match v with
  | None | Some ANil => Some None
  | Some (AObject fields) =>
      listChanged ← decodeBool (field "listChanged" fields);
      Some (Some (RootsCapability.mk listChanged))
  | Some _ => None
  end.

Definition decodeSampling (v : option any)
    : option (option SamplingCapability.t) :=
  match v with
  | None | Some ANil => Some None
  | Some (AObject _) => Some (Some SamplingCapability.mk)
  | Some _ => None
  end.

Definition decodeCapabilities (v : option any) : option Capabilities.t :=
  match v with
  | None | Some ANil => Some (Capabilities.mk None None)
  | Some (AObject fields) =>
      roots ← decodeRoots (field "roots" fields);
      sampling ← decodeSampling (field "sampling" fields);
      Some (Capabilities.mk roots sampling)
  | Some _ => None
  end.

Definition decodeClientInfo (v : option any) : option ClientInfo.t :=
  match v with
  | None | Some ANil => Some (ClientInfo.mk EmptyString EmptyString)
  | Some (AObject fields) =>
      name ← decodeString (field "name" fields);
      version ← decodeString (field "version" fields);
      Some (ClientInfo.mk name version)
  | Some _ => None
  end.

Definition decodeInitializeParams (v : any) : option InitializeParams.t :=
  match v with
  | ANil =>
      Some (InitializeParams.mk EmptyString (Capabilities.mk None None)
              (ClientInfo.mk EmptyString EmptyString))
  | AObject fields =>
      protocolVersion ← decodeString (field "protocolVersion" fields);
      capabilities ← decodeCapabilities (field "capabilities" fields);
      clientInfo ← decodeClientInfo (field "clientInfo" fields);
      Some (InitializeParams.mk protocolVersion capabilities clientInfo)
  | _ => None
  end.

(** A JSON string literal without escapes. *)
Definition quoted (s : string) : string :=
  byteString 34 +:+ s +:+ byteString 34.

(** The wire form of a message that has only a version tag and a
    method: a notification without parameters. *)
Definition notificationLine (method : string) : string :=
  "{" +:+ quoted "jsonrpc" +:+ ":" +:+ quoted "2.0" +:+ ","
      +:+ quoted "method" +:+ ":" +:+ quoted method +:+ "}".

(** The messages whose wire form the examples use. *)
Definition wire : list (string * JSONRPCRequest.t) :=
  map (λ method, (notificationLine method,
                  JSONRPCRequest.mk "2.0" ANil method ANil))
      ["initialized"; "notifications/cancelled"].

(** The message decoder on the lines of [wire]; every other input is
    taken as malformed. *)
Definition unmarshalRequest (body : string) : option JSONRPCRequest.t :=
  snd <$> List.find (λ entry, bool_decide (entry.1 = body)) wire.

#[local] Instance codec : EncodingJSON := {|
  Unmarshal_Request := unmarshalRequest;
  Unmarshal_Batch := λ _, None;
  Decode_InitializeParams := decodeInitializeParams;
  Decode_GetPromptParams := decodeGetPromptParams
|}.
End ExactKeyJSON.

#[local] Existing Instance ExactKeyJSON.codec.

(** ** Values used in the examples, after the package's tests *)

(** [context.Background()] *)
Definition background : Context.t := Context.mk None.

(** A context that has been cancelled. *)
Definition cancelled : Context.t := Context.mk (Some context_Canceled).

(** A message without id and without params. *)
Definition notification (method : string) : JSONRPCRequest.t :=
  JSONRPCRequest.mk "2.0" ANil method ANil.

(** A message with the id [id], a string. *)
Definition requestOf (id method : string) (params : any) : JSONRPCRequest.t :=
  JSONRPCRequest.mk "2.0" (AString id) method params.

Definition testServer : Server.t := NewServer "test-server" "1.0.0".

(** [initialize] followed by the [initialized] notification. *)
Definition handshake : list Call :=
  [CallHandleRequest background (requestOf "init" "initialize" ANil);
   CallHandleRequest background (notification "initialized")].

(** The handler of the tests: it greets the argument [name]. *)
Definition greetingHandler : PromptHandler :=
  λ ctx args,
    (Some (GetPromptResult.mk "Greeting message"
             [PromptMessage.mk "user"
                (MessageContent.mk "text"
                   ("Hello, " +:+ default EmptyString (args !! "name")))]),
     None).

(** The params of the [initialize] request of the tests, with the
    protocol version [version]. *)
Definition initializeParams (version : string) : any :=
  AObject [("protocolVersion", AString version);
           ("capabilities", AObject []);
           ("clientInfo", AObject [("name", AString "test-client");
                                   ("version", AString "1.0.0")])].

(** Standard input holding the lines of [lines] and then its end. *)
Definition stdinOf (lines : list string) : nat → ScanResult :=
  λ i, match lines !! i with
       | Some line => ScanLine line
       | None => ScanStop None
       end.

(** ** prompts.go: the loader *)

(** [s[n:]], for [n] up to the length of [s]. *)
Fixpoint sliceFrom (n : nat) (s : string) : string :=
  match n, s with
  | O, _ => s
  | S _, EmptyString => EmptyString
  | S n', String _ s' => sliceFrom n' s'
  end.

(** [s[:n]], for [n] up to the length of [s]. *)
Fixpoint sliceTo (n : nat) (s : string) : string :=
  match n, s with
  | O, _ => EmptyString
  | S _, EmptyString => EmptyString
  | S n', String c s' => String c (sliceTo n' s')
  end.

(** [s[lo:hi]] *)
Definition slice (lo hi : nat) (s : string) : string :=
  sliceFrom lo (sliceTo hi s).

(** The scan of [strings.Index]: [i] is the offset of [s] in the string
    the search started from. *)
Fixpoint indexFrom (i : Z) (s substr : string) : Z :=
  match s with
  | EmptyString => if HasPrefix s substr then i else -1
  | String _ s' => if HasPrefix s substr then i else indexFrom (i + 1) s' substr
  end.

(** [strings.Index(s, substr)]: the offset of the first instance of
    [substr] in [s], or -1. *)
Definition Index (s substr : string) : Z :=
  indexFrom 0 s substr.

(** The loop of [filepath.Ext], where [i] bytes of [path] are still to be
    looked at, from the last one down; the path separator is the slash. *)
Fixpoint extLoop (path : string) (i : nat) : string :=
  match i with
  | O => EmptyString
  | S i' =>
      match String.get i' path with
      | Some c =>
          if decide (c = Ascii.ascii_of_nat 47) then EmptyString
          else if decide (c = Ascii.ascii_of_nat 46) then sliceFrom i' path
          else extLoop path i'
      | None => EmptyString
      end
  end.

(** [filepath.Ext(path)]: the suffix of [path] that begins at the last dot
    of its last element, empty when that element has no dot. *)
Definition Ext (path : string) : string :=
  extLoop path (String.length path).

(** What the loader takes from other libraries.
    - [toml_Unmarshal data] is [toml.Unmarshal(data, &def)] on a zero
      [PromptDefinition]: the definition as the decoder leaves it, and the
      error;
    - [TrimSpace s] is [strings.TrimSpace(s)]. *)
Class LoaderLibraries : Type := {
  toml_Unmarshal : string → PromptDefinition.t * option error;
  TrimSpace : string → string
}.

(** [PromptDefinition{}] *)
Definition zeroDefinition : PromptDefinition.t :=
  PromptDefinition.mk EmptyString EmptyString [] EmptyString.

(** [def.Content = content] *)
Definition setContent (def : PromptDefinition.t) (content : string)
    : PromptDefinition.t :=
  PromptDefinition.mk (PromptDefinition.Name def)
    (PromptDefinition.Description def) (PromptDefinition.Arguments def)
    content.

(** What [fs.WalkDir] hands to the callback in one call, and what the
    embedded file system holds at that path: [err] is the error argument,
    [IsDir] is [d.IsDir()], [ReadFile] the outcome of
    [promptFiles.ReadFile(path)]. *)
Module WalkEntry.
Record t : Type := mk {
  path : string;
  err : option error;
  IsDir : bool;
  ReadFile : string * option error
}.
End WalkEntry.

Section Loader.
Context {libraries : LoaderLibraries}.

Definition parseMarkdownPrompt (data : string)
    : PromptDefinition.t * option error :=
  let content := data in
  if negb (HasPrefix content "+++") then
    (zeroDefinition,
     Some (errorString "markdown file must start with +++ frontmatter delimiter"))
  else
    let endIndex := Index (sliceFrom 3 content) "+++" in
    if decide (endIndex = -1) then
      (zeroDefinition,
       Some (errorString "missing closing +++ delimiter for frontmatter"))
    else
      let endIndex := endIndex + 3 in
      let frontmatter := slice 3 (Z.to_nat endIndex) content in
      let promptContent :=
        TrimSpace (sliceFrom (Z.to_nat (endIndex + 3)) content) in
      match toml_Unmarshal frontmatter with
      | (_, Some err) =>
          (zeroDefinition, Some (Errorf_w "failed to parse frontmatter: " err))
      | (def, None) => (setContent def promptContent, None)
      end.

(** The callback [LoadPromptsFromTOML] passes to [fs.WalkDir]:
    [definitions] is the slice before the call; the result is the slice
    after it and the error the callback returns. *)
Definition walkFn (definitions : list PromptDefinition.t) (entry : WalkEntry.t)
    : list PromptDefinition.t * option error :=
  match WalkEntry.err entry with
  | Some err => (definitions, Some err)
  | None =>
      if WalkEntry.IsDir entry then (definitions, None)
      else
        let path := WalkEntry.path entry in
        let ext := Ext path in
        if bool_decide (ext ≠ ".toml") && bool_decide (ext ≠ ".md")
        then (definitions, None)
        else
          match WalkEntry.ReadFile entry with
          | (_, Some err) =>
              (definitions,
               Some (Errorf_w ("failed to read " +:+ path +:+ ": ") err))
          | (data, None) =>
              let '(def, failure) :=
                if decide (ext = ".md") then parseMarkdownPrompt data
                else toml_Unmarshal data in
              match failure with
              | Some err =>
                  (definitions,
                   Some (Errorf_w ("failed to parse " +:+ path +:+ ": ") err))
              | None => (definitions ++ [def], None)
              end
          end
  end.

(** [fs.WalkDir] over the calls [entries] it would make if the callback
    never failed: it stops at the first call for which the callback
    returns an error, and returns that error. *)
Fixpoint WalkDir (definitions : list PromptDefinition.t)
    (entries : list WalkEntry.t) : list PromptDefinition.t * option error :=
  match entries with
  | [] => (definitions, None)
  | entry :: entries' =>
      match walkFn definitions entry with
      | (definitions', None) => WalkDir definitions' entries'
      | (definitions', Some err) => (definitions', Some err)
      end
  end.

Definition LoadPromptsFromTOML (entries : list WalkEntry.t)
    : list PromptDefinition.t * option error :=
  match WalkDir [] entries with
  | (_, Some err) => ([], Some err)
  | (definitions, None) => (definitions, None)
  end.
End Loader.

(** ** Readings of responses *)

(** The code of the error of a response, if it has one. *)
Definition errorCode (response : option JSONRPCResponse.t) : option Z :=
  r ← response; e ← JSONRPCResponse.Error r; Some (JSONRPCError.Code e).

(** The JSON-RPC responses in what was written to an HTTP body. *)
Definition writtenResponses (w : ResponseWriter.t) : list JSONRPCResponse.t :=
  concat (map (λ data, match data with
                       | WrittenText _ => []
                       | WrittenResponse r => [r]
                       | WrittenResponses rs => rs
                       end)
              (ResponseWriter.Body w)).

(** A file the loader reads: not a directory, with the extension of a
    TOML or a markdown file. *)
Definition isPromptFile (entry : WalkEntry.t) : bool :=
  negb (WalkEntry.IsDir entry)
  && (bool_decide (Ext (WalkEntry.path entry) = ".toml")
      || bool_decide (Ext (WalkEntry.path entry) = ".md")).

(** What the loader makes of the bytes of a prompt file. *)
Definition parseFile {libraries : LoaderLibraries} (entry : WalkEntry.t)
    : PromptDefinition.t * option error :=
  if decide (Ext (WalkEntry.path entry) = ".md")
  then parseMarkdownPrompt (WalkEntry.ReadFile entry).1
  else toml_Unmarshal (WalkEntry.ReadFile entry).1.

(** A prompt file that is read and decoded without error. *)
Definition loads {libraries : LoaderLibraries} (entry : WalkEntry.t) : Prop :=
  WalkEntry.err entry = None
  ∧ (isPromptFile entry = true →
     (WalkEntry.ReadFile entry).2 = None ∧ (parseFile entry).2 = None).


(** ** Readings of histories *)

(** The prompt and the handler of the last registration under [name] in
    [history], if there is one. *)
Definition registeredAs (name : string) (history : list Call)
    : option (Prompt.t * PromptHandler) :=
  foldl (λ found c,
           match c with
           | CallRegisterPrompt prompt handler =>
               if decide (Prompt.Name prompt = name)
               then Some (prompt, handler) else found
           | CallHandleRequest _ _ => found
           end)
        None history.

(** ** Instances used in the examples of the loader and of sessions *)

Module SampleLoader.
(** The six ASCII white-space bytes. *)
Definition asciiSpace (c : Ascii.ascii) : bool :=
  bool_decide (Ascii.nat_of_ascii c ∈ [9; 10; 11; 12; 13; 32]%nat).

Fixpoint trimLeft (s : string) : string :=
  match s with
  | EmptyString => EmptyString
  | String c s' => if asciiSpace c then trimLeft s' else s
  end.

Fixpoint trimRight (s : string) : string :=
  match s with
  | EmptyString => EmptyString
  | String c s' =>
      match trimRight s' with
      | EmptyString => if asciiSpace c then EmptyString else String c EmptyString
      | kept => String c kept
      end
  end.

(** [strings.TrimSpace] on text whose white space is ASCII. *)
Definition trimSpace (s : string) : string :=
  trimRight (trimLeft s).

(** A front matter that names the prompt [greeting]. *)
Definition greetingFrontmatter : string :=
  byteString 10 +:+ "name = " +:+ ExactKeyJSON.quoted "greeting" +:+ byteString 10.

(** The TOML decoder on the one document the examples use; every other
    input is taken as malformed. *)
Definition unmarshal (data : string) : PromptDefinition.t * option error :=
  if decide (data = greetingFrontmatter)
  then (PromptDefinition.mk "greeting" EmptyString [] EmptyString, None)
  else (zeroDefinition, Some (errorString "toml: malformed document")).

#[local] Instance libraries : LoaderLibraries := {|
  toml_Unmarshal := unmarshal;
  TrimSpace := trimSpace
|}.

(** A markdown prompt file: the front matter between two delimiters, and
    a body. *)
Definition greetingFile : string :=
  "+++" +:+ greetingFrontmatter +:+ "+++" +:+ byteString 10
        +:+ "Hello, {{name}}!" +:+ byteString 10.
End SampleLoader.

#[local] Existing Instance SampleLoader.libraries.

Module SessionJSON.
(** The wire form of a request with the id [id], a string, and without
    parameters. *)
Definition requestLine (id method : string) : string :=
  "{" +:+ ExactKeyJSON.quoted "jsonrpc" +:+ ":" +:+ ExactKeyJSON.quoted "2.0"
      +:+ "," +:+ ExactKeyJSON.quoted "id" +:+ ":" +:+ ExactKeyJSON.quoted id
      +:+ "," +:+ ExactKeyJSON.quoted "method" +:+ ":"
      +:+ ExactKeyJSON.quoted method +:+ "}".

(** The messages of a session: the handshake and two requests. *)
Definition wire : list (string * JSONRPCRequest.t) :=
  [(requestLine "1" "initialize", requestOf "1" "initialize" ANil);
   (ExactKeyJSON.notificationLine "initialized", notification "initialized");
   (requestLine "2" "prompts/list", requestOf "2" "prompts/list" ANil);
   (requestLine "3" "initialized", requestOf "3" "initialized" ANil)].

Definition unmarshalRequest (body : string) : option JSONRPCRequest.t :=
  snd <$> List.find (λ entry, bool_decide (entry.1 = body)) wire.

(** A body is decoded as a batch when it is the lines of [wire] it names,
    separated by commas and bracketed. *)
Definition batchBody (lines : list string) : string :=
  "[" +:+ String.concat "," lines +:+ "]".

Definition unmarshalBatch (body : string) : option (list JSONRPCRequest.t) :=
  if decide (body = batchBody [requestLine "2" "prompts/list";
                               ExactKeyJSON.notificationLine "initialized"])
  then Some [requestOf "2" "prompts/list" ANil; notification "initialized"]
  else None.

Definition codec : EncodingJSON := {|
  Unmarshal_Request := unmarshalRequest;
  Unmarshal_Batch := unmarshalBatch;
  Decode_InitializeParams := ExactKeyJSON.decodeInitializeParams;
  Decode_GetPromptParams := ExactKeyJSON.decodeGetPromptParams
|}.
End SessionJSON.

(** Unfolds the operations on the response writer. *)
Ltac writer :=
  unfold sendJSONError, http_Error, handleSSEStream,
    ResponseWriter.StatusCode, ResponseWriter.Write,
    ResponseWriter.WriteHeader, ResponseWriter.Set_, ResponseWriter.new,
    writtenResponses;
  simpl.

(** * Properties of the dispatcher *)

Section DispatcherFacts.
Context {range : MapRange} {json : EncodingJSON}.

Lemma handleRequest_initialized (s : Server.t) ctx request :
  Server.initialized (handleRequest s ctx request).1
  = Server.initialized s
    || bool_decide (JSONRPCRequest.Method request = "initialized").
Proof.
  unfold handleRequest.
  destruct (decide (JSONRPCRequest.Method request = "initialize")) as [Hm|_].
  { rewrite Hm. simpl. by rewrite orb_false_r. }
  destruct (decide (JSONRPCRequest.Method request = "initialized")) as [Hm|Hm].
  { rewrite bool_decide_eq_true_2 by done. simpl. by rewrite orb_true_r. }
  rewrite bool_decide_eq_false_2 by done. rewrite orb_false_r.
  repeat case_decide; by destruct (Server.initialized s) eqn:?.
Qed.

(** The dispatcher changes nothing of the server but the flag. *)
Lemma handleRequest_frame (s : Server.t) ctx request :
  let s' := (handleRequest s ctx request).1 in
  Server.name s' = Server.name s
  ∧ Server.version s' = Server.version s
  ∧ Server.promptRegistry s' = Server.promptRegistry s
  ∧ Server.protocolVersion s' = Server.protocolVersion s.
Proof.
  unfold handleRequest.
  repeat case_decide; simpl; try done; by destruct (Server.initialized s) eqn:?.
Qed.

(** Every method but [initialized] leaves the server as it is. *)
Lemma handleRequest_unchanged (s : Server.t) ctx request :
  JSONRPCRequest.Method request ≠ "initialized" →
  (handleRequest s ctx request).1 = s.
Proof.
  intros Hm. unfold handleRequest.
  repeat case_decide; simpl; try done; by destruct (Server.initialized s) eqn:?.
Qed.

(** The dispatcher withholds a response exactly for the method
    [initialized], whether or not the message has an id. *)
Lemma handleRequest_no_response (s : Server.t) ctx request :
  (handleRequest s ctx request).2 = None
  ↔ JSONRPCRequest.Method request = "initialized".
Proof.
  unfold handleRequest.
  destruct (decide (JSONRPCRequest.Method request = "initialize")) as [Hm|_].
  { rewrite Hm. by split. }
  destruct (decide (JSONRPCRequest.Method request = "initialized")) as [Hm|Hm].
  { by split. }
  split; [|done].
  repeat case_decide; by destruct (Server.initialized s) eqn:?.
Qed.

(** A response echoes the id of its request. *)
Lemma handleRequest_ID (s : Server.t) ctx request response :
  (handleRequest s ctx request).2 = Some response →
  JSONRPCResponse.ID response = JSONRPCRequest.ID request.
Proof.
  unfold handleRequest, handleInitialize, handlePromptsList, handlePromptsGet.
  repeat case_decide; simpl;
    repeat (case_match; simpl; try done);
    intros [= <-]; done.
Qed.

(** While the flag is down both prompt methods are refused. *)
Lemma refused_while_uninitialized (s : Server.t) ctx request :
  Server.initialized s = false →
  JSONRPCRequest.Method request = "prompts/list"
  ∨ JSONRPCRequest.Method request = "prompts/get" →
  handleRequest s ctx request
  = (s, Some (errorResponse (JSONRPCRequest.ID request) (-32002)
                "Server not initialized" ANil)).
Proof.
  intros Hflag [Hm|Hm]; unfold handleRequest; rewrite Hm, Hflag; done.
Qed.

Lemma call_initialized (s : Server.t) (c : Call) :
  Server.initialized (call s c) = Server.initialized s || sendsInitialized c.
Proof.
  destruct c as [prompt handler|ctx request]; simpl.
  - by rewrite orb_false_r.
  - apply handleRequest_initialized.
Qed.

Lemma calls_initialized (s : Server.t) (history : list Call) :
  Server.initialized (calls s history)
  = Server.initialized s || existsb sendsInitialized history.
Proof.
  revert s. induction history as [|c history IH]; intros s; simpl.
  - by rewrite orb_false_r.
  - unfold calls in *. simpl. rewrite IH, call_initialized.
    by rewrite orb_assoc.
Qed.

(** Name, version and protocol version are fixed at construction. *)
Lemma calls_identity (s : Server.t) (history : list Call) :
  Server.name (calls s history) = Server.name s
  ∧ Server.version (calls s history) = Server.version s
  ∧ Server.protocolVersion (calls s history) = Server.protocolVersion s.
Proof.
  revert s. induction history as [|c history IH]; intros s; [done|].
  unfold calls in *. simpl.
  destruct (IH (call s c)) as (-> & -> & ->).
  destruct c as [prompt handler|ctx request]; simpl; [done|].
  destruct (handleRequest_frame s ctx request) as (? & ? & _ & ?). done.
Qed.

(** C2, amended. The flag is down in a new server; after any history of
    registrations and dispatched messages it is up exactly when it was up
    before or the history holds a message whose method is [initialized],
    whether or not [initialize] was ever called and whether or not that
    message has an id. Further calls can only raise it: it never comes
    down again. *)
Theorem initialized_flag_lifecycle :
  (∀ name version, Server.initialized (NewServer name version) = false)
  ∧ (∀ s history,
       Server.initialized (calls s history)
       = Server.initialized s || existsb sendsInitialized history)
  ∧ (∀ s history history',
       Server.initialized (calls s (history ++ history'))
       = Server.initialized (calls s history)
         || existsb sendsInitialized history').
Proof.
  split; [done|]. split; [apply calls_initialized|].
  intros s history history'.
  by rewrite !calls_initialized, existsb_app, orb_assoc.
Qed.

(** C3. After any history of registrations and dispatched messages on a
    new server in which no message has the method [initialized], the flag
    is down, and a [prompts/list] or [prompts/get] request with an id is
    answered with the error -32002, the server staying as it is. *)
Theorem prompts_refused_before_initialized
    (name version : string) (history : list Call) ctx request :
  existsb sendsInitialized history = false →
  JSONRPCRequest.Method request = "prompts/list"
  ∨ JSONRPCRequest.Method request = "prompts/get" →
  hasID request = true →
  let s := calls (NewServer name version) history in
  Server.initialized s = false
  ∧ handleRequest s ctx request
    = (s, Some (JSONRPCResponse.mk "2.0" (JSONRPCRequest.ID request) None
                  (Some (JSONRPCError.mk (-32002) "Server not initialized"
                           ANil)))).
Proof.
  intros Hhistory Hmethod _ s.
  assert (Server.initialized s = false) as Hflag.
  { unfold s. by rewrite calls_initialized, Hhistory. }
  split; [done|]. by apply refused_while_uninitialized.
Qed.

(** C7. On a server built by [NewServer name version], after any history
    of calls, an [initialize] request whose params are absent or decode
    without error is answered with the protocol version 2025-03-26, the
    prompts capability and the configured name and version, whatever the
    client sent; the server stays as it is. *)
Theorem initialize_result
    (name version : string) (history : list Call) ctx request :
  JSONRPCRequest.Method request = "initialize" →
  isNil (JSONRPCRequest.Params request) = true
  ∨ is_Some (Decode_InitializeParams (JSONRPCRequest.Params request)) →
  let s := calls (NewServer name version) history in
  handleRequest s ctx request
  = (s, Some (JSONRPCResponse.mk "2.0" (JSONRPCRequest.ID request)
                (Some (ResultInitialize
                   (InitializeResult.mk "2025-03-26"
                      (ServerCapabilities.mk
                         (Some (PromptsCapability.mk false)) None)
                      (ServerInfo.mk name version))))
                None)).
Proof.
  intros Hmethod Hparams s.
  destruct (calls_identity (NewServer name version) history)
    as (Hname & Hversion & Hprotocol).
  fold s in Hname, Hversion, Hprotocol. simpl in Hname, Hversion, Hprotocol.
  unfold handleRequest. rewrite Hmethod. simpl.
  unfold handleInitialize. rewrite Hname, Hversion, Hprotocol.
  destruct Hparams as [->|[params ->]]; [done|].
  by destruct (isNil (JSONRPCRequest.Params request)).
Qed.

End DispatcherFacts.

(** * Properties of [prompts/get] *)

Section PromptsGet.
Context {range : MapRange} {json : EncodingJSON}.

(** [handlePromptsGet] through the parameters it passes on. *)
Lemma handlePromptsGet_params (s : Server.t) ctx request params :
  promptParams request = Some params →
  handlePromptsGet s ctx request
  = match Execute (Server.promptRegistry s) ctx
            (GetPromptParams.Name params) (GetPromptParams.Arguments params) with
    | (_, Some err) =>
        errorResponse (JSONRPCRequest.ID request) (-32603) (Error err) ANil
    | (result, None) =>
        JSONRPCResponse.mk "2.0" (JSONRPCRequest.ID request)
          (Some (ResultGetPrompt result)) None
    end.
Proof.
  unfold promptParams, handlePromptsGet.
  destruct (isNil (JSONRPCRequest.Params request)).
  - by intros [= <-].
  - by intros ->.
Qed.

Lemma handleRequest_prompts_get (s : Server.t) ctx request :
  Server.initialized s = true →
  JSONRPCRequest.Method request = "prompts/get" →
  handleRequest s ctx request = (s, Some (handlePromptsGet s ctx request)).
Proof.
  intros Hflag Hmethod. unfold handleRequest. by rewrite Hmethod, Hflag.
Qed.

(** C4, amended. In the initialized state, a [prompts/get] request whose
    params are absent or decode without error and whose execution by the
    registry fails is answered with the error -32603 whose message field
    is the message of the failure and whose data field is nil; for a name
    without a handler that message is [prompt not found: ] followed by the
    name. The server stays as it is. *)
Theorem prompts_get_failure (s : Server.t) ctx request params result err :
  Server.initialized s = true →
  JSONRPCRequest.Method request = "prompts/get" →
  promptParams request = Some params →
  Execute (Server.promptRegistry s) ctx
    (GetPromptParams.Name params) (GetPromptParams.Arguments params)
  = (result, Some err) →
  handleRequest s ctx request
  = (s, Some (JSONRPCResponse.mk "2.0" (JSONRPCRequest.ID request) None
                (Some (JSONRPCError.mk (-32603) (Error err) ANil))))
  ∧ (PromptRegistry.handlers (Server.promptRegistry s)
       !! GetPromptParams.Name params = None →
     Error err = "prompt not found: " +:+ GetPromptParams.Name params).
Proof.
  intros Hflag Hmethod Hparams Hexec. split.
  - rewrite handleRequest_prompts_get by done.
    by rewrite (handlePromptsGet_params _ _ _ params), Hexec.
  - intros Hnone. unfold Execute in Hexec. rewrite Hnone in Hexec.
    by injection Hexec as _ <-.
Qed.

(** C9, amended. In the initialized state, a [prompts/get] request without
    params is not refused with -32602: the registry is asked to execute
    the prompt of the empty name with an empty argument map. When no
    handler is registered under the empty name the answer is the error
    -32603 with the message [prompt not found: ]; when one is, the answer
    is what that handler returns. *)
Theorem prompts_get_without_params (s : Server.t) ctx request :
  Server.initialized s = true →
  JSONRPCRequest.Method request = "prompts/get" →
  JSONRPCRequest.Params request = ANil →
  handleRequest s ctx request
  = (s, Some
      match PromptRegistry.handlers (Server.promptRegistry s) !! EmptyString with
      | None =>
          JSONRPCResponse.mk "2.0" (JSONRPCRequest.ID request) None
            (Some (JSONRPCError.mk (-32603) "prompt not found: " ANil))
      | Some handler =>
          match handler ctx ∅ with
          | (_, Some err) =>
              JSONRPCResponse.mk "2.0" (JSONRPCRequest.ID request) None
                (Some (JSONRPCError.mk (-32603) (Error err) ANil))
          | (result, None) =>
              JSONRPCResponse.mk "2.0" (JSONRPCRequest.ID request)
                (Some (ResultGetPrompt result)) None
          end
      end).
Proof.
  intros Hflag Hmethod Hparams.
  rewrite handleRequest_prompts_get by done.
  rewrite (handlePromptsGet_params _ _ _ GetPromptParams.zero)
    by (unfold promptParams; by rewrite Hparams).
  unfold Execute. simpl.
  destruct (PromptRegistry.handlers (Server.promptRegistry s) !! EmptyString)
    as [handler|]; [|done].
  by destruct (handler ctx ∅) as [result [err|]].
Qed.

End PromptsGet.

(** * Properties of the line transport *)

Section LineTransportFacts.
Context {range : MapRange} {json : EncodingJSON}.

(** A pass that reads a line goes round again. *)
Lemma iteration_line_continues (s : Server.t) ctx line :
  Context.Done ctx = false →
  ∃ s' written, iteration s ctx (ScanLine line) = Continue s' written.
Proof.
  intros Hctx. unfold iteration. rewrite Hctx.
  case_decide; [by eauto|].
  destruct (Unmarshal_Request line) as [request|]; [|by eauto].
  destruct (handleRequest s ctx request) as [s' [r|]]; by eauto.
Qed.

(** A pass that reads a notification answers it unless its method is
    [initialized]; the answer has the nil id. *)
Lemma iteration_notification (s : Server.t) ctx line request :
  Context.Done ctx = false →
  line ≠ EmptyString →
  Unmarshal_Request line = Some request →
  JSONRPCRequest.ID request = ANil →
  JSONRPCRequest.Method request ≠ "initialized" →
  ∃ r, iteration s ctx (ScanLine line) = Continue s [r]
       ∧ JSONRPCResponse.ID r = ANil.
Proof.
  intros Hctx Hline Hparse Hid Hmethod. unfold iteration.
  rewrite Hctx, Hparse.
  case_decide as Hlen; [by destruct line|].
  pose proof (handleRequest_unchanged s ctx request Hmethod) as Hs.
  pose proof (handleRequest_no_response s ctx request) as Hnone.
  pose proof (handleRequest_ID s ctx request) as Hecho.
  destruct (handleRequest s ctx request) as [s' [r|]]; simpl in *.
  - exists r. subst s'. split; [done|]. rewrite <- Hid. by apply Hecho.
  - by destruct Hmethod, Hnone as [-> _].
Qed.

(** The first [k] passes from pass [i] on, when each finds the context
    not done and reads a line, lead to pass [i + k]. *)
Lemma Run_from_lines (k : nat) ctx stdin (i : nat) (s : Server.t) out :
  (∀ j, (i ≤ j < i + k)%nat →
        Context.Done (ctx j) = false ∧ ∃ line, stdin j = ScanLine line) →
  ∃ s' out', ∀ fuel,
    Run_from (k + fuel) ctx stdin i s out
    = Run_from fuel ctx stdin (i + k)%nat s' out'.
Proof.
  revert i s out. induction k as [|k IH]; intros i s out Hlines.
  - exists s, out. intros fuel. by rewrite Nat.add_0_r.
  - destruct (Hlines i) as [Hctx [line Hline]]; [lia|].
    destruct (iteration_line_continues s (ctx i) line Hctx)
      as (s1 & written & Hpass).
    destruct (IH (S i) s1 (out ++ written)) as (s' & out' & Hrest).
    { intros j Hj. apply Hlines. lia. }
    exists s', out'. intros fuel. simpl. rewrite Hline, Hpass, Hrest.
    f_equal. lia.
Qed.

(** C1, on the line transport. A line that decodes to a message without
    id whose method is none of the four known ones is answered: the loop
    writes the error -32601 with a nil id to standard output. The HTTP
    transport writes no body for such a message. *)
Theorem line_transport_answers_unknown_notification
    (s : Server.t) ctx stdin line request :
  Context.Done (ctx O) = false →
  Context.Done (ctx 1%nat) = false →
  stdin O = ScanLine line →
  stdin 1%nat = ScanStop None →
  line ≠ EmptyString →
  Unmarshal_Request line = Some request →
  JSONRPCRequest.ID request = ANil →
  knownMethod (JSONRPCRequest.Method request) = false →
  Run 2 s ctx stdin
  = Some (s, [JSONRPCResponse.mk "2.0" ANil None
                (Some (JSONRPCError.mk (-32601) "Method not found" ANil))],
          None).
Proof.
  intros Hctx0 Hctx1 Hin0 Hin1 Hline Hparse Hid Hmethod.
  unfold knownMethod in Hmethod.
  repeat (apply orb_false_elim in Hmethod as [Hmethod ?]).
  repeat match goal with
         | Hb : bool_decide _ = false |- _ => apply bool_decide_eq_false in Hb
         end.
  unfold Run. simpl. rewrite Hin0, Hin1. unfold iteration.
  rewrite Hctx0, Hctx1, Hparse.
  case_decide as Hlen; [by destruct line|].
  unfold handleRequest. repeat (case_decide; [done|]).
  by rewrite Hid.
Qed.

(** C6, amended. Let pass [k] be the first that does not read a line.
    If it finds the context done, [Run] returns the context's error,
    which is not nil; if it finds the scanner stopped, [Run] returns nil
    at the end of the stream and the read failure, wrapped with the prefix
    [error reading from stdin: ], otherwise. Any fuel above [k] gives that
    result. *)
Theorem Run_terminates (k : nat) (s : Server.t) ctx stdin :
  (∀ j, (j < k)%nat →
        Context.Done (ctx j) = false ∧ ∃ line, stdin j = ScanLine line) →
  (Context.Done (ctx k) = true →
   ∃ s' out err,
     Context.Err (ctx k) = Some err
     ∧ ∀ fuel, (k < fuel)%nat →
         Run fuel s ctx stdin = Some (s', out, Some err))
  ∧ (∀ stop, Context.Done (ctx k) = false → stdin k = ScanStop stop →
     ∃ s' out,
       ∀ fuel, (k < fuel)%nat →
         Run fuel s ctx stdin
         = Some (s', out,
                 match stop with
                 | Some err =>
                     if is_io_EOF err then None
                     else Some (wrapError
                                  ("error reading from stdin: " +:+ Error err)
                                  err)
                 | None => None
                 end)).
Proof.
  intros Hlines.
  destruct (Run_from_lines k ctx stdin O s []) as (s' & out & Hprefix).
  { intros j Hj. apply Hlines. lia. }
  simpl in Hprefix. split.
  - intros Hdone. unfold Context.Done in Hdone.
    destruct (Context.Err (ctx k)) as [err|] eqn:Herr; [|done].
    exists s', out, err. split; [done|]. intros fuel Hfuel.
    replace fuel with (k + S (fuel - S k))%nat by lia.
    unfold Run. rewrite Hprefix. simpl. unfold iteration, Context.Done.
    by rewrite Herr.
  - intros stop Hctx Hstop. exists s', out. intros fuel Hfuel.
    replace fuel with (k + S (fuel - S k))%nat by lia.
    unfold Run. rewrite Hprefix. simpl. unfold iteration.
    rewrite Hctx, Hstop.
    destruct stop as [err|]; [|done]. by destruct (is_io_EOF err).
Qed.

(** C10. A pass that finds the context not done and reads an empty line
    writes nothing and leaves the server as it is, whatever the decoder
    would make of the empty input; the loop goes on with the next pass. *)
Theorem empty_line_skipped
    (fuel : nat) ctx stdin (i : nat) (s : Server.t) out :
  Context.Done (ctx i) = false →
  stdin i = ScanLine EmptyString →
  iteration s (ctx i) (stdin i) = Continue s []
  ∧ Run_from (S fuel) ctx stdin i s out = Run_from fuel ctx stdin (S i) s out.
Proof.
  intros Hctx Hline.
  assert (iteration s (ctx i) (stdin i) = Continue s []) as Hpass.
  { unfold iteration. by rewrite Hctx, Hline. }
  split; [done|]. simpl. by rewrite Hpass, app_nil_r.
Qed.

End LineTransportFacts.

(** * Properties of the HTTP transport *)

Section HTTPTransportFacts.
Context {range : MapRange} {json : EncodingJSON}.

(** A single message without id is dispatched and gets the status 202
    and no body, whatever its method. *)
Lemma handleSingleRequest_notification (s : Server.t) ctx request :
  JSONRPCRequest.ID request = ANil →
  let '(s', w) := handleSingleRequest ResponseWriter.new s ctx request in
  s' = (handleRequest s ctx request).1
  ∧ ResponseWriter.StatusCode w = 202
  ∧ ResponseWriter.Body w = [].
Proof.
  intros Hid. unfold handleSingleRequest. rewrite Hid. simpl.
  by destruct (handleRequest s ctx request) as [s' response].
Qed.

(** The loop of [handleBatchRequest], from any accumulator. *)
Lemma batch_loop (s : Server.t) ctx batch responses hasRequests :
  foldl (batchStep ctx) (s, responses, hasRequests) batch
  = (dispatchAll s ctx batch,
     responses ++ answers s ctx batch,
     hasRequests || existsb hasID batch).
Proof.
  revert s responses hasRequests.
  induction batch as [|request batch IH]; intros s responses hasRequests.
  - simpl. by rewrite app_nil_r, orb_false_r.
  - simpl. unfold hasID.
    destruct (handleRequest s ctx request) as [s' response] eqn:Hdispatch.
    simpl.
    destruct (isNil (JSONRPCRequest.ID request)), response as [r|];
      simpl; rewrite IH; unfold hasID, dispatchAll; simpl;
      rewrite ?Hdispatch; simpl; rewrite <- ?app_assoc, ?orb_true_r; done.
Qed.

(** The ids of the answers are the ids of the answered elements, in the
    order of the batch. *)
Lemma answers_ids (s : Server.t) ctx batch :
  map JSONRPCResponse.ID (answers s ctx batch)
  = map JSONRPCRequest.ID (List.filter answered batch).
Proof.
  revert s. induction batch as [|request batch IH]; intros s; [done|].
  simpl. unfold answered, hasID.
  pose proof (handleRequest_no_response s ctx request) as Hnone.
  pose proof (handleRequest_ID s ctx request) as Hecho.
  destruct (handleRequest s ctx request) as [s' [r|]]; simpl in *.
  - rewrite bool_decide_eq_false_2.
    2: { intros Hm. by apply Hnone in Hm. }
    destruct (isNil (JSONRPCRequest.ID request)); simpl; [done|].
    by rewrite IH, (Hecho r).
  - rewrite bool_decide_eq_true_2 by (by apply Hnone).
    by rewrite andb_false_r.
Qed.

(** C5, amended. [handleBatchRequest] dispatches every element in array
    order. When no element has an id the response is 202 with an empty
    body. Otherwise it is 200 with one JSON array holding, in the order of
    the batch, the dispatcher's response to each element that has an id
    and whose method is not [initialized]; an element without id, and an
    element with an id whose method is [initialized], contributes no
    entry. Each entry carries the id of its element. *)
Theorem batch_responses (s : Server.t) ctx batch :
  let '(s', w) := handleBatchRequest ResponseWriter.new s ctx batch in
  s' = dispatchAll s ctx batch
  ∧ (if existsb hasID batch
     then ResponseWriter.StatusCode w = 200
          ∧ ResponseWriter.Header w !! "Content-Type" = Some "application/json"
          ∧ ResponseWriter.Body w = [WrittenResponses (answers s ctx batch)]
     else ResponseWriter.StatusCode w = 202
          ∧ ResponseWriter.Body w = [])
  ∧ map JSONRPCResponse.ID (answers s ctx batch)
    = map JSONRPCRequest.ID (List.filter answered batch)
  ∧ length (answers s ctx batch) = length (List.filter answered batch).
Proof.
  unfold handleBatchRequest. rewrite batch_loop. simpl.
  pose proof (answers_ids s ctx batch) as Hids.
  destruct (existsb hasID batch); simpl;
    (split; [done|]); (split; [done|]); (split; [done|]);
    by rewrite <- (length_map JSONRPCResponse.ID), Hids, length_map.
Qed.

End HTTPTransportFacts.

(** * Properties of [ReplaceAll] *)

Section ReplaceAllFacts.
Implicit Types s old new a b : string.

Lemma length_append a b :
  String.length (a +:+ b) = (String.length a + String.length b)%nat.
Proof. induction a as [|c a IH]; simpl; [done|]. by rewrite IH. Qed.

(** Two splits of one string at the same offset are the same split. *)
Lemma append_eq_length a a' b b' :
  a +:+ b = a' +:+ b' →
  String.length a = String.length a' →
  a = a' ∧ b = b'.
Proof.
  revert a'. induction a as [|c a IH]; intros [|c' a']; simpl; try done.
  intros [= -> Hrest] [= Hlen]. destruct (IH a' Hrest Hlen) as [-> ->]. done.
Qed.

Lemma HasPrefix_true s old :
  HasPrefix s old = true ↔ ∃ b, s = old +:+ b.
Proof.
  revert s. induction old as [|x old IH]; intros s.
  - split; [by exists s|by destruct s].
  - destruct s as [|c s]; simpl.
    + split; [done|]. by intros [b ?].
    + case_decide as Hc.
      * subst c. rewrite IH. split; intros [b Hb]; exists b.
        -- by rewrite Hb.
        -- by injection Hb.
      * split; [done|]. intros [b Hb]. by injection Hb.
Qed.

(** An occurrence right at the start is a prefix. *)
Lemma occursAt_start old s :
  occursAt old s EmptyString ↔ HasPrefix s old = true.
Proof. by rewrite HasPrefix_true. Qed.

Lemma occursAt_String old c s c' a :
  occursAt old (String c s) (String c' a) ↔ c = c' ∧ occursAt old s a.
Proof.
  unfold occursAt. simpl. split.
  - intros [b [= -> ->]]. by eauto.
  - intros [-> [b ->]]. by eauto.
Qed.

(** The bytes of a match that are still to be dropped are dropped. *)
Lemma replaceFrom_skip a b old new :
  replaceFrom (String.length a) (a +:+ b) old new = replaceFrom O b old new.
Proof.
  induction a as [|c a IH]; simpl; [|done].
  destruct b; done.
Qed.

(** A byte that does not start a match is kept. *)
Lemma ReplacedAll_String old new c s r :
  HasPrefix (String c s) old = false →
  ReplacedAll old new s r →
  ReplacedAll old new (String c s) (String c r).
Proof.
  intros Hprefix Hrest.
  destruct Hrest as [s Hnone|a b b' Hfirst Hrest].
  - apply ReplacedAll_none. intros [|c' a] Hocc.
    + apply occursAt_start in Hocc. congruence.
    + apply occursAt_String in Hocc as [_ Hocc]. by apply (Hnone a).
  - apply (ReplacedAll_first old new (String c a) b b'); [|done].
    intros [|c' a'] Hocc.
    + apply occursAt_start in Hocc.
      destruct (eq_true_false_abs _ Hocc Hprefix).
    + apply (occursAt_String old c (a +:+ old +:+ b)) in Hocc as [_ Hocc].
      apply Hfirst in Hocc. simpl. lia.
Qed.

Lemma replaceFrom_ReplacedAll old new (n : nat) s :
  old ≠ EmptyString →
  (String.length s ≤ n)%nat →
  ReplacedAll old new s (replaceFrom O s old new).
Proof.
  intros Hold. revert s. induction n as [|n IH]; intros s Hlen.
  - destruct s; [|simpl in Hlen; lia].
    apply ReplacedAll_none. intros a [b Hb].
    apply (f_equal String.length) in Hb. rewrite !length_append in Hb.
    destruct old; [done|]. simpl in Hb. lia.
  - destruct s as [|c s].
    { apply ReplacedAll_none. intros a [b Hb].
      apply (f_equal String.length) in Hb. rewrite !length_append in Hb.
      destruct old; [done|]. simpl in Hb. lia. }
    simpl in Hlen. cbn [replaceFrom].
    destruct (HasPrefix (String c s) old) eqn:Hprefix.
    + apply HasPrefix_true in Hprefix as [b Hb].
      destruct old as [|x old]; [done|]. simpl in Hb.
      injection Hb as -> ->.
      replace (String.length (String x old) - 1)%nat with (String.length old)
        by (simpl; lia).
      rewrite replaceFrom_skip.
      apply (ReplacedAll_first (String x old) new EmptyString b).
      * intros a' _. simpl. lia.
      * apply IH. rewrite length_append in Hlen. lia.
    + apply ReplacedAll_String; [done|]. apply IH. lia.
Qed.

(** [ReplaceAll] replaces every non-overlapping occurrence, leftmost
    first. *)
Lemma ReplaceAll_ReplacedAll s old new :
  old ≠ EmptyString →
  ReplacedAll old new s (ReplaceAll s old new).
Proof.
  intros Hold. unfold ReplaceAll. destruct old as [|x old']; [done|].
  by apply (replaceFrom_ReplacedAll _ _ (String.length s)).
Qed.

(** There is one such replacement. *)
Lemma ReplacedAll_unique old new s r r' :
  ReplacedAll old new s r → ReplacedAll old new s r' → r = r'.
Proof.
  intros Hr. revert r'.
  induction Hr as [s Hnone|a b b' Hfirst Hrest IH]; intros r' Hr'.
  - inversion Hr' as [s' _|a b b' _ _ Hs]; [done|].
    subst. by destruct (Hnone a); exists b.
  - inversion Hr' as [s' Hnone Hs|a2 b2 b2' Hfirst2 Hrest2 Hs].
    + subst. by destruct (Hnone a); exists b.
    + assert (String.length a2 = String.length a) as Hlen.
      { apply Nat.le_antisymm.
        - apply Hfirst2. rewrite Hs. by exists b.
        - apply Hfirst. rewrite <- Hs. by exists b2. }
      destruct (append_eq_length _ _ _ _ Hs Hlen) as [-> Hob].
      apply String.app_inj in Hob as ->.
      by rewrite (IH b2').
Qed.

Lemma placeholder_nonempty (name : string) : placeholder name ≠ EmptyString.
Proof. done. Qed.

(** The loop of [CreateHandler] makes one replacement per entry. *)
Lemma substitute_SubstitutedAll (entries : list (string * string)) (content : string) :
  SubstitutedAll entries content (substitute content entries).
Proof.
  revert content.
  induction entries as [|[name value] entries IH]; intros content.
  - apply SubstitutedAll_nil.
  - apply (SubstitutedAll_cons name value entries content
             (ReplaceAll content (placeholder name) value)); [|apply IH].
    apply ReplaceAll_ReplacedAll, placeholder_nonempty.
Qed.

Lemma SubstitutedAll_unique (entries : list (string * string)) (content text text' : string) :
  SubstitutedAll entries content text →
  SubstitutedAll entries content text' →
  text = text'.
Proof.
  intros Htext. revert text'.
  induction Htext as [content|name value entries content content' text Hstep _ IH];
    intros text' Htext'.
  - by inversion Htext'.
  - inversion Htext' as [|? ? ? ? content2 ? Hstep2 Hrest2]; subst.
    rewrite (ReplacedAll_unique _ _ _ _ _ Hstep2 Hstep) in Hrest2.
    by apply IH.
Qed.

End ReplaceAllFacts.

(** * Properties of the default handler *)

Section DefaultHandler.
Context {range : MapRange}.

(** With one argument the loop of [CreateHandler] and the one-pass
    substitution of the specification are the same scan. *)
Lemma specSubstituteFrom_single (skip : nat) (content name value : string) :
  specSubstituteFrom skip content [(name, value)]
  = replaceFrom skip content (placeholder name) value.
Proof.
  revert skip. induction content as [|c content IH]; intros skip; [done|].
  destruct skip as [|skip]; simpl.
  - case_decide; simpl; [|by rewrite IH].
    destruct (HasPrefix content ("{" +:+ name +:+ "}}")); simpl;
      by rewrite IH.
  - apply IH.
Qed.

Lemma rangeOrder_empty : rangeOrder (∅ : gmap string string) = [].
Proof.
  apply Permutation_nil_r. rewrite rangeOrder_perm. by rewrite map_to_list_empty.
Qed.

Lemma rangeOrder_singleton (name value : string) :
  rangeOrder ({[name := value]} : gmap string string) = [(name, value)].
Proof.
  apply Permutation_singleton_r.
  rewrite rangeOrder_perm. by rewrite map_to_list_singleton.
Qed.

(** C8, amended. For a definition without content the handler fails with
    the error [no content available for prompt: ] followed by the name.
    Otherwise it returns the definition's description and one message of
    role [user] and type [text]. Its text comes from the content by one
    literal replace-all per argument of the map, of the argument's
    placeholder by its value: the arguments are taken one after the other,
    in some order of the map's entries (the one the [range] loop happens
    to take), and each replace-all is made in the text the earlier ones
    produced. With no argument or one argument that text is the one-pass
    substitution of the specification. *)
Theorem default_handler (d : PromptDefinition.t) ctx (args : gmap string string) :
  ∃ (entries : list (string * string)) (text : string),
    entries ≡ₚ map_to_list args
    ∧ SubstitutedAll entries (PromptDefinition.Content d) text
    ∧ CreateHandler d ctx args
      = (if decide (PromptDefinition.Content d = EmptyString)
         then (None, Some (errorString ("no content available for prompt: "
                                        +:+ PromptDefinition.Name d)))
         else (Some (GetPromptResult.mk (PromptDefinition.Description d)
                       [PromptMessage.mk "user" (MessageContent.mk "text" text)]),
               None))
    ∧ (args = ∅ ∨ (∃ name value, args = {[name := value]}) →
       text = specSubstitute (PromptDefinition.Content d) args).
Proof.
  exists (rangeOrder args),
         (substitute (PromptDefinition.Content d) (rangeOrder args)).
  split; [apply rangeOrder_perm|].
  split; [apply substitute_SubstitutedAll|].
  split.
  - unfold CreateHandler, Errorf_s. by case_decide.
  - unfold specSubstitute.
    intros [->|(name & value & ->)].
    + rewrite rangeOrder_empty, map_to_list_empty. simpl.
      induction (PromptDefinition.Content d) as [|c content IH]; [done|].
      simpl. by rewrite <- IH.
    + rewrite rangeOrder_singleton, map_to_list_singleton.
      by rewrite specSubstituteFrom_single.
Qed.

End DefaultHandler.

(** * The package's tests, replayed on the model *)

Example test_initialize :
  (handleRequest testServer background
     (requestOf "1" "initialize" (initializeParams "2025-03-26"))).2
  = Some (JSONRPCResponse.mk "2.0" (AString "1")
            (Some (ResultInitialize
               (InitializeResult.mk "2025-03-26"
                  (ServerCapabilities.mk (Some (PromptsCapability.mk false)) None)
                  (ServerInfo.mk "test-server" "1.0.0"))))
            None).
Proof. reflexivity. Qed.

Example test_initialize_invalid_params :
  (handleRequest testServer background
     (requestOf "1" "initialize" (AString "invalid params"))).2
  = Some (errorResponse (AString "1") (-32602) "Invalid params" ANil).
Proof. reflexivity. Qed.

Example test_prompts_list_after_handshake :
  let s := calls (RegisterPrompt testServer
                    (Prompt.mk "p" "A prompt" []) greetingHandler) handshake in
  (handleRequest s background (requestOf "1" "prompts/list" ANil)).2
  = Some (JSONRPCResponse.mk "2.0" (AString "1")
            (Some (ResultListPrompts
               (ListPromptsResult.mk [Prompt.mk "p" "A prompt" []] EmptyString)))
            None).
Proof. vm_compute. reflexivity. Qed.

Example test_prompts_get_after_handshake :
  let s := calls (RegisterPrompt testServer
                    (Prompt.mk "greeting" "A greeting prompt" [])
                    greetingHandler) handshake in
  (handleRequest s background
     (requestOf "1" "prompts/get"
        (AObject [("name", AString "greeting");
                  ("arguments", AObject [("name", AString "World")])]))).2
  = Some (JSONRPCResponse.mk "2.0" (AString "1")
            (Some (ResultGetPrompt (Some
               (GetPromptResult.mk "Greeting message"
                  [PromptMessage.mk "user"
                     (MessageContent.mk "text" "Hello, World")]))))
            None).
Proof. vm_compute. reflexivity. Qed.

Example test_method_not_found :
  (handleRequest testServer background
     (requestOf "1" "unknown/method" ANil)).2
  = Some (errorResponse (AString "1") (-32601) "Method not found" ANil).
Proof. reflexivity. Qed.

Example test_create_handler :
  CreateHandler
    (PromptDefinition.mk "greeting" "Greeting prompt" []
       "Hello, {{name}}! Welcome to {{place}}.")
    background {["name" := "Alice"; "place" := "Wonderland"]}
  = (Some (GetPromptResult.mk "Greeting prompt"
             [PromptMessage.mk "user"
                (MessageContent.mk "text"
                   "Hello, Alice! Welcome to Wonderland.")]),
     None).
Proof. vm_compute. reflexivity. Qed.

Example test_mixed_batch :
  let batch := [requestOf "1" "prompts/list" ANil;
                notification "initialized";
                requestOf "2" "prompts/list" ANil] in
  let w := (handleBatchRequest ResponseWriter.new
              (calls testServer handshake) background batch).2 in
  ResponseWriter.StatusCode w = 200
  ∧ ∃ r1 r2, ResponseWriter.Body w = [WrittenResponses [r1; r2]]
             ∧ JSONRPCResponse.ID r1 = AString "1"
             ∧ JSONRPCResponse.ID r2 = AString "2".
Proof. vm_compute. split; [done|]. by eexists _, _. Qed.

(** The elements of a batch are dispatched in order: the notification
    raises the flag before the request behind it is served. *)
Example batch_in_array_order :
  let w := (handleBatchRequest ResponseWriter.new testServer background
              [notification "initialized";
               requestOf "1" "prompts/list" ANil]).2 in
  ResponseWriter.Body w
  = [WrittenResponses
       [JSONRPCResponse.mk "2.0" (AString "1")
          (Some (ResultListPrompts (ListPromptsResult.mk [] EmptyString)))
          None]].
Proof. by vm_compute. Qed.

Example test_batch_of_notifications :
  let w := (handleBatchRequest ResponseWriter.new testServer background
              [notification "initialized"; notification "initialized"]).2 in
  ResponseWriter.StatusCode w = 202 ∧ ResponseWriter.Body w = [].
Proof. by vm_compute. Qed.

Example test_parse_error :
  let w := (HTTPHandler testServer ResponseWriter.new
              (Request.mk "POST" (inl "invalid json") background)).2 in
  ResponseWriter.StatusCode w = 400
  ∧ ResponseWriter.Body w
    = [WrittenResponse (errorResponse ANil (-32700) "Parse error" ANil)].
Proof. by vm_compute. Qed.

Example test_method_not_allowed :
  ResponseWriter.StatusCode
    (HTTPHandler testServer ResponseWriter.new
       (Request.mk "PUT" (inl EmptyString) background)).2 = 405.
Proof. by vm_compute. Qed.

(** * Instances of the theorems, and inputs at which the specification's
      wording fails *)

(** A notification of the method [notifications/cancelled] on standard
    input is answered with the error -32601. *)
Lemma line_transport_answers_unknown_notification_witness :
  Run 2 testServer (λ _, background)
    (stdinOf [ExactKeyJSON.notificationLine "notifications/cancelled"])
  = Some (testServer,
          [JSONRPCResponse.mk "2.0" ANil None
             (Some (JSONRPCError.mk (-32601) "Method not found" ANil))],
          None).
Proof.
  apply (line_transport_answers_unknown_notification testServer
           (λ _, background)
           (stdinOf [ExactKeyJSON.notificationLine "notifications/cancelled"])
           (ExactKeyJSON.notificationLine "notifications/cancelled")
           (notification "notifications/cancelled"));
    first [reflexivity | discriminate].
Defined.

(** C2 as worded fails: the [initialized] notification alone, with no
    [initialize] call before it, raises the flag. *)
Lemma initialized_without_initialize :
  let history := [CallHandleRequest background (notification "initialized")] in
  Server.initialized (calls testServer history) = true
  ∧ existsb sendsInitialize history = false.
Proof. split; reflexivity. Qed.

(** After a registration and an [initialize] call, [prompts/list] with
    the id 1 is refused with -32002. *)
Lemma prompts_refused_before_initialized_witness :
  let history :=
    [CallRegisterPrompt (Prompt.mk "greeting" "A greeting prompt" [])
       greetingHandler;
     CallHandleRequest background
       (requestOf "init" "initialize" (initializeParams "2025-03-26"))] in
  let s := calls testServer history in
  Server.initialized s = false
  ∧ handleRequest s background (requestOf "1" "prompts/list" ANil)
    = (s, Some (JSONRPCResponse.mk "2.0" (AString "1") None
                  (Some (JSONRPCError.mk (-32002) "Server not initialized"
                           ANil)))).
Proof.
  apply (prompts_refused_before_initialized "test-server" "1.0.0"
           [CallRegisterPrompt (Prompt.mk "greeting" "A greeting prompt" [])
              greetingHandler;
            CallHandleRequest background
              (requestOf "init" "initialize" (initializeParams "2025-03-26"))]
           background (requestOf "1" "prompts/list" ANil)).
  - reflexivity.
  - left. reflexivity.
  - reflexivity.
Defined.

(** C4 as worded fails: for the unregistered name [unknown-prompt] the
    failure's message is in the message field of the error, and the data
    field is nil. *)
Lemma prompts_get_failure_data_nil :
  let s := calls testServer handshake in
  let request :=
    requestOf "1" "prompts/get" (AObject [("name", AString "unknown-prompt")]) in
  Execute (Server.promptRegistry s) background "unknown-prompt" ∅
  = (None, Some (errorString "prompt not found: unknown-prompt"))
  ∧ (handleRequest s background request).2
    = Some (JSONRPCResponse.mk "2.0" (AString "1") None
              (Some (JSONRPCError.mk (-32603)
                       "prompt not found: unknown-prompt" ANil)))
  ∧ ANil ≠ AString "prompt not found: unknown-prompt".
Proof. split; [reflexivity|]. split; [reflexivity|discriminate]. Qed.

Lemma prompts_get_failure_witness :
  let s := calls testServer handshake in
  let request :=
    requestOf "1" "prompts/get" (AObject [("name", AString "unknown-prompt")]) in
  handleRequest s background request
  = (s, Some (JSONRPCResponse.mk "2.0" (AString "1") None
                (Some (JSONRPCError.mk (-32603)
                         "prompt not found: unknown-prompt" ANil)))).
Proof.
  apply (prompts_get_failure (calls testServer handshake) background
           (requestOf "1" "prompts/get"
              (AObject [("name", AString "unknown-prompt")]))
           (GetPromptParams.mk "unknown-prompt" ∅) None
           (errorString "prompt not found: unknown-prompt"));
    reflexivity.
Defined.

(** C5 as worded fails: a batch whose one element has an id and the
    method [initialized] gets 200 with an empty array, no response for
    its id-bearing element. *)
Lemma batch_initialized_with_id :
  let batch := [requestOf "1" "initialized" ANil] in
  let w := (handleBatchRequest ResponseWriter.new testServer background
              batch).2 in
  length (List.filter hasID batch) = 1%nat
  ∧ ResponseWriter.StatusCode w = 200
  ∧ ResponseWriter.Body w = [WrittenResponses []].
Proof. split; [reflexivity|]. split; reflexivity. Qed.

(** C6 as worded fails: when the context is cancelled, [Run] returns the
    error [context.Canceled], not nil. *)
Lemma Run_cancelled_returns_error :
  Run 1 testServer (λ _, cancelled) (stdinOf [])
  = Some (testServer, [], Some context_Canceled)
  ∧ Some context_Canceled ≠ (None : option error).
Proof. split; [reflexivity|discriminate]. Qed.

(** One empty line, then the context is cancelled at the second pass. *)
Lemma Run_terminates_witness :
  ∃ s' out err,
    Context.Err cancelled = Some err
    ∧ ∀ fuel, (1 < fuel)%nat →
        Run fuel testServer
          (λ i, match i with O => background | _ => cancelled end)
          (stdinOf [EmptyString; EmptyString])
        = Some (s', out, Some err).
Proof.
  apply (Run_terminates 1 testServer
           (λ i, match i with O => background | _ => cancelled end)
           (stdinOf [EmptyString; EmptyString])).
  - intros j Hj. assert (j = O) as -> by lia.
    split; [reflexivity|]. exists EmptyString. reflexivity.
  - reflexivity.
Defined.

(** The client asks for the protocol version 2024-11-05 and is answered
    2025-03-26. *)
Lemma initialize_result_witness :
  let s := calls testServer handshake in
  handleRequest s background
    (requestOf "1" "initialize" (initializeParams "2024-11-05"))
  = (s, Some (JSONRPCResponse.mk "2.0" (AString "1")
                (Some (ResultInitialize
                   (InitializeResult.mk "2025-03-26"
                      (ServerCapabilities.mk
                         (Some (PromptsCapability.mk false)) None)
                      (ServerInfo.mk "test-server" "1.0.0"))))
                None)).
Proof.
  apply (initialize_result "test-server" "1.0.0" handshake background
           (requestOf "1" "initialize" (initializeParams "2024-11-05"))).
  - reflexivity.
  - right. eexists. reflexivity.
Defined.

(** C8 as worded fails: the value of [a] is the placeholder of [b]. When
    the loop takes [a] first the text is [x]; the one-pass substitution of
    the specification, and the loop when it takes [b] first, give the
    value of [a] as it was supplied. *)
Lemma default_handler_order_dependent :
  let d := PromptDefinition.mk "chain" "Chained" [] "{{a}}" in
  let args : gmap string string := {["a" := "{{b}}"; "b" := "x"]} in
  let text (result : option GetPromptResult.t * option error) :=
    (λ r, PromptMessage.Content <$> GetPromptResult.Messages r) <$> result.1 in
  text (CreateHandler (range := enumerationOrder) d background args)
  = Some [MessageContent.mk "text" "x"]
  ∧ text (CreateHandler (range := reverseOrder) d background args)
    = Some [MessageContent.mk "text" "{{b}}"]
  ∧ specSubstitute (PromptDefinition.Content d) args = "{{b}}".
Proof. vm_compute. split; [reflexivity|]. split; reflexivity. Qed.

(** With the one argument [name] the handler greets Alice, as the
    specification's substitution does. *)
Lemma default_handler_witness :
  ∃ text : string,
    text = specSubstitute "Hello, {{name}}!" {["name" := "Alice"]}
    ∧ CreateHandler
        (PromptDefinition.mk "greeting" "Greeting prompt" [] "Hello, {{name}}!")
        background {["name" := "Alice"]}
      = (Some (GetPromptResult.mk "Greeting prompt"
                 [PromptMessage.mk "user" (MessageContent.mk "text" text)]),
         None).
Proof.
  destruct (default_handler
              (PromptDefinition.mk "greeting" "Greeting prompt" []
                 "Hello, {{name}}!")
              background {["name" := "Alice"]})
    as (entries & text & _ & _ & Hresult & Hspec).
  exists text. split.
  - apply Hspec. right. exists "name", "Alice". reflexivity.
  - exact Hresult.
Defined.

(** C9 as worded fails: with a handler registered under the empty name,
    a [prompts/get] request without params is answered with that
    handler's result. *)
Lemma prompts_get_without_params_found :
  let s := calls (RegisterPrompt testServer
                    (Prompt.mk EmptyString "Unnamed" []) greetingHandler)
                 handshake in
  (handleRequest s background (requestOf "1" "prompts/get" ANil)).2
  = Some (JSONRPCResponse.mk "2.0" (AString "1")
            (Some (ResultGetPrompt (Some
               (GetPromptResult.mk "Greeting message"
                  [PromptMessage.mk "user"
                     (MessageContent.mk "text" "Hello, ")]))))
            None).
Proof. vm_compute. reflexivity. Qed.

Lemma prompts_get_without_params_witness :
  let s := calls testServer handshake in
  handleRequest s background (requestOf "1" "prompts/get" ANil)
  = (s, Some (JSONRPCResponse.mk "2.0" (AString "1") None
                (Some (JSONRPCError.mk (-32603) "prompt not found: " ANil)))).
Proof.
  apply (prompts_get_without_params (calls testServer handshake) background
           (requestOf "1" "prompts/get" ANil));
    reflexivity.
Defined.

(** An empty first line: the loop goes on with the second pass. *)
Lemma empty_line_skipped_witness :
  iteration testServer background (ScanLine EmptyString)
  = Continue testServer []
  ∧ Run_from 2 (λ _, background) (stdinOf [EmptyString]) O testServer []
    = Run_from 1 (λ _, background) (stdinOf [EmptyString]) 1 testServer [].
Proof.
  apply (empty_line_skipped 1 (λ _, background) (stdinOf [EmptyString])
           O testServer []);
    reflexivity.
Defined.

(** * Further properties of the registry and the dispatcher *)

Section RegistryAndDispatcher.
Context {range : MapRange} {json : EncodingJSON}.

Lemma calls_snoc (s : Server.t) (history : list Call) (c : Call) :
  calls s (history ++ [c]) = call (calls s history) c.
Proof. unfold calls. by rewrite foldl_snoc. Qed.

Lemma registeredAs_snoc (n : string) (history : list Call) (c : Call) :
  registeredAs n (history ++ [c])
  = match c with
    | CallRegisterPrompt prompt handler =>
        if decide (Prompt.Name prompt = n)
        then Some (prompt, handler) else registeredAs n history
    | CallHandleRequest _ _ => registeredAs n history
    end.
Proof. unfold registeredAs. by rewrite foldl_snoc. Qed.

(** A prompt is registered under its own name. *)
Lemma registeredAs_name (n : string) (history : list Call) prompt handler :
  registeredAs n history = Some (prompt, handler) → Prompt.Name prompt = n.
Proof.
  induction history as [|c history IH] using rev_ind; [done|].
  rewrite registeredAs_snoc.
  destruct c as [prompt' handler'|ctx request]; [|done].
  case_decide; [|done]. by intros [= <- _].
Qed.

(** The registry follows the registrations of the history. *)
Lemma calls_registry (name version : string) (history : list Call) (n : string) :
  let r := Server.promptRegistry (calls (NewServer name version) history) in
  PromptRegistry.prompts r !! n = fst <$> registeredAs n history
  ∧ PromptRegistry.handlers r !! n = snd <$> registeredAs n history.
Proof.
  induction history as [|c history IH] using rev_ind; [done|].
  simpl in *. rewrite calls_snoc, registeredAs_snoc.
  destruct c as [prompt handler|ctx request]; simpl.
  - case_decide as Hname.
    + subst n. by rewrite !lookup_insert_eq.
    + by rewrite !lookup_insert_ne.
  - by destruct (handleRequest_frame (calls (NewServer name version) history)
                   ctx request) as (_ & _ & -> & _).
Qed.

(** X1. After any history of registrations and dispatched messages on a
    new server, the registry holds under each name the prompt and the
    handler of the last registration under that name, and nothing under a
    name that was never registered: a later registration replaces an
    earlier one in both maps, and no message changes either map. So the
    two maps have the same names, and each prompt is kept under its own
    name. *)
Theorem registry_after_history (name version : string) (history : list Call)
    (n : string) :
  let r := Server.promptRegistry (calls (NewServer name version) history) in
  PromptRegistry.prompts r !! n = fst <$> registeredAs n history
  ∧ PromptRegistry.handlers r !! n = snd <$> registeredAs n history
  ∧ (is_Some (PromptRegistry.prompts r !! n)
     ↔ is_Some (PromptRegistry.handlers r !! n))
  ∧ ∀ prompt, PromptRegistry.prompts r !! n = Some prompt →
              Prompt.Name prompt = n.
Proof.
  destruct (calls_registry name version history n) as [Hprompts Hhandlers].
  simpl in *. rewrite Hprompts, Hhandlers.
  split; [done|]. split; [done|]. split.
  - by rewrite !fmap_is_Some.
  - intros prompt Hprompt.
    destruct (registeredAs n history) as [[p h]|] eqn:Hreg; [|done].
    injection Hprompt as <-. by apply (registeredAs_name n history p h).
Qed.

(** X2. In the initialized state of a server with the history [history],
    a [prompts/get] request whose params are absent or decode without
    error runs the handler of the last registration under the requested
    name, with the decoded arguments: its result is returned, its failure
    becomes the error -32603 with the failure's message, and a name never
    registered gives -32603 [prompt not found]. The server stays as it
    is. *)
Theorem prompts_get_runs_last_registration
    (name version : string) (history : list Call) ctx request params :
  let s := calls (NewServer name version) history in
  Server.initialized s = true →
  JSONRPCRequest.Method request = "prompts/get" →
  promptParams request = Some params →
  handleRequest s ctx request
  = (s, Some
      match registeredAs (GetPromptParams.Name params) history with
      | None =>
          errorResponse (JSONRPCRequest.ID request) (-32603)
            ("prompt not found: " +:+ GetPromptParams.Name params) ANil
      | Some (_, handler) =>
          match handler ctx (GetPromptParams.Arguments params) with
          | (_, Some err) =>
              errorResponse (JSONRPCRequest.ID request) (-32603) (Error err) ANil
          | (result, None) =>
              JSONRPCResponse.mk "2.0" (JSONRPCRequest.ID request)
                (Some (ResultGetPrompt result)) None
          end
      end).
Proof.
  intros s Hflag Hmethod Hparams.
  rewrite handleRequest_prompts_get by done.
  rewrite (handlePromptsGet_params _ _ _ params) by done.
  unfold Execute.
  destruct (calls_registry name version history
              (GetPromptParams.Name params)) as [_ Hhandlers].
  fold s in Hhandlers. rewrite Hhandlers.
  by destruct (registeredAs (GetPromptParams.Name params) history)
    as [[prompt handler]|].
Qed.

(** X3. In the initialized state of a server with the history [history],
    [prompts/list] returns every registered prompt once: the names in the
    result are pairwise distinct, and a prompt is in the result exactly
    when it is the last one registered under its name. The server stays as
    it is. *)
Theorem prompts_list_result
    (name version : string) (history : list Call) ctx request :
  let s := calls (NewServer name version) history in
  Server.initialized s = true →
  JSONRPCRequest.Method request = "prompts/list" →
  ∃ prompts : list Prompt.t,
    handleRequest s ctx request
    = (s, Some (JSONRPCResponse.mk "2.0" (JSONRPCRequest.ID request)
                  (Some (ResultListPrompts
                     (ListPromptsResult.mk prompts EmptyString)))
                  None))
    ∧ NoDup (Prompt.Name <$> prompts)
    ∧ ∀ prompt, prompt ∈ prompts
        ↔ fst <$> registeredAs (Prompt.Name prompt) history = Some prompt.
Proof.
  intros s Hflag Hmethod.
  exists (ListPrompts (Server.promptRegistry s)). split.
  { unfold handleRequest. by rewrite Hmethod, Hflag. }
  unfold ListPrompts.
  set (m := PromptRegistry.prompts (Server.promptRegistry s)).
  assert (∀ n p, m !! n = Some p → Prompt.Name p = n) as Hkeyed.
  { intros n p Hp.
    destruct (calls_registry name version history n) as [Hprompts _].
    fold s in Hprompts. fold m in Hprompts. rewrite Hp in Hprompts.
    destruct (registeredAs n history) as [[p' h]|] eqn:Hreg; [|done].
    injection Hprompts as ->. by apply (registeredAs_name n history p' h). }
  assert (∀ n p, (n, p) ∈ rangeOrder m ↔ m !! n = Some p) as Hentries.
  { intros n p. by rewrite (rangeOrder_perm _ m), elem_of_map_to_list. }
  split.
  - assert (Prompt.Name <$> (rangeOrder m).*2 = (rangeOrder m).*1) as ->.
    { rewrite <- list_fmap_compose. apply list_fmap_ext.
      intros i [n p] Hin. simpl. apply (Hkeyed n p).
      apply Hentries. by apply list_elem_of_lookup_2 in Hin. }
    rewrite (rangeOrder_perm _ m). apply NoDup_fst_map_to_list.
  - intros prompt.
    destruct (calls_registry name version history (Prompt.Name prompt))
      as [Hprompts _].
    fold s in Hprompts. fold m in Hprompts. rewrite <- Hprompts.
    rewrite list_elem_of_fmap. split.
    + intros ([n p] & -> & Hin). simpl.
      apply Hentries in Hin. by rewrite (Hkeyed n p Hin).
    + intros Hin. exists (Prompt.Name prompt, prompt). split; [done|].
      by apply Hentries.
Qed.

(** The shape of a response. *)
Lemma handleRequest_shape (s : Server.t) ctx request response :
  (handleRequest s ctx request).2 = Some response →
  JSONRPCResponse.JSONRPC response = "2.0"
  ∧ match JSONRPCResponse.Result response, JSONRPCResponse.Error response with
    | Some _, None => True
    | None, Some e =>
        JSONRPCError.Code e ∈ [-32601; -32602; -32603; -32002]
        ∧ JSONRPCError.Data e = ANil
    | _, _ => False
    end.
Proof.
  unfold handleRequest, handleInitialize, handlePromptsList, handlePromptsGet,
    errorResponse.
  repeat case_decide; simpl;
    repeat (case_match; simpl; try done);
    intros [= <-]; simpl; (split; [done|]); try done.
  all: simplify_eq/=; split; [set_solver|done].
Qed.

(** X4. What the dispatcher answers is well formed. It withholds a
    response exactly for the method [initialized]. A response carries the
    version tag 2.0 and the id of its request, and has either a result or
    an error, never both and never neither; an error has one of the codes
    -32601, -32602, -32603 and -32002 and no data. *)
Theorem response_well_formed (s : Server.t) ctx request :
  match (handleRequest s ctx request).2 with
  | None => JSONRPCRequest.Method request = "initialized"
  | Some response =>
      JSONRPCRequest.Method request ≠ "initialized"
      ∧ JSONRPCResponse.JSONRPC response = "2.0"
      ∧ JSONRPCResponse.ID response = JSONRPCRequest.ID request
      ∧ match JSONRPCResponse.Result response, JSONRPCResponse.Error response with
        | Some _, None => True
        | None, Some e =>
            JSONRPCError.Code e ∈ [-32601; -32602; -32603; -32002]
            ∧ JSONRPCError.Data e = ANil
        | _, _ => False
        end
  end.
Proof.
  pose proof (handleRequest_no_response s ctx request) as Hnone.
  pose proof (handleRequest_ID s ctx request) as Hecho.
  pose proof (handleRequest_shape s ctx request) as Hshape.
  destruct (handleRequest s ctx request) as [s' [response|]];
    simpl in *; [|by apply Hnone].
  split; [intros Hm; by apply Hnone in Hm|].
  destruct (Hshape response eq_refl) as [Htag Hone].
  split; [done|]. split; [by apply Hecho|done].
Qed.

(** X5. The dispatcher answers -32601 exactly when the method is none of
    [initialize], [initialized], [prompts/list] and [prompts/get]; the
    answer then is [Method not found] with the id of the request, whatever
    the state, and the server stays as it is. *)
Theorem method_not_found (s : Server.t) ctx request :
  (errorCode (handleRequest s ctx request).2 = Some (-32601)
   ↔ knownMethod (JSONRPCRequest.Method request) = false)
  ∧ (if knownMethod (JSONRPCRequest.Method request) then True
     else handleRequest s ctx request
          = (s, Some (errorResponse (JSONRPCRequest.ID request) (-32601)
                        "Method not found" ANil))).
Proof.
  destruct (knownMethod (JSONRPCRequest.Method request)) eqn:Hknown.
  - split; [|done]. split; [|done].
    unfold knownMethod in Hknown. revert Hknown.
    unfold handleRequest, handleInitialize, handlePromptsList,
      handlePromptsGet, errorCode.
    repeat case_decide; simpl; repeat (case_match; simpl; try done).
    all: intros; by simplify_eq/=.
  - assert (handleRequest s ctx request
            = (s, Some (errorResponse (JSONRPCRequest.ID request) (-32601)
                          "Method not found" ANil))) as ->; [|done].
    unfold knownMethod in Hknown.
    repeat (apply orb_false_elim in Hknown as [Hknown ?]).
    repeat match goal with
           | Hb : bool_decide _ = false |- _ => apply bool_decide_eq_false in Hb
           end.
    unfold handleRequest. by repeat (case_decide; [done|]).
Qed.

(** X6. The dispatcher answers -32602 exactly when the params are present
    and do not decode: for [initialize] in any state, and for
    [prompts/get] in the initialized state (before it, the request is
    refused with -32002 without a look at its params). The answer is
    [Invalid params] with the id of the request, and the server stays as
    it is. *)
Theorem invalid_params (s : Server.t) ctx request :
  let undecodable :=
    isNil (JSONRPCRequest.Params request) = false
    ∧ ((JSONRPCRequest.Method request = "initialize"
        ∧ Decode_InitializeParams (JSONRPCRequest.Params request) = None)
       ∨ (JSONRPCRequest.Method request = "prompts/get"
          ∧ Server.initialized s = true
          ∧ Decode_GetPromptParams (JSONRPCRequest.Params request) = None)) in
  (errorCode (handleRequest s ctx request).2 = Some (-32602) ↔ undecodable)
  ∧ (undecodable →
     handleRequest s ctx request
     = (s, Some (errorResponse (JSONRPCRequest.ID request) (-32602)
                   "Invalid params" ANil))).
Proof.
  simpl. split.
  - unfold handleRequest, handleInitialize, handlePromptsList,
      handlePromptsGet, errorCode.
    split.
    + destruct (Server.initialized s) eqn:Hflag;
        repeat case_decide; simpl;
        repeat (case_match; simpl; try done);
        try done; intros _; (split; [done|]);
        first [left; split; done | right; split; [done|]; split; done].
    + intros [Hparams [[Hm Hdecode]|(Hm & Hflag & Hdecode)]];
        rewrite Hm; simpl; rewrite ?Hflag, Hparams, Hdecode; done.
  - intros [Hparams [[Hm Hdecode]|(Hm & Hflag & Hdecode)]];
      unfold handleRequest, handleInitialize, handlePromptsGet;
      rewrite Hm; simpl; rewrite ?Hflag, Hparams, Hdecode; done.
Qed.

End RegistryAndDispatcher.

(** * Further properties of the line transport *)

Section LineTransportExtras.
Context {range : MapRange} {json : EncodingJSON}.

(** A pass returns only when the context is done or the scanner has
    stopped. *)
Lemma iteration_Return (s : Server.t) ctx scan err :
  iteration s ctx scan = Return err →
  Context.Done ctx = true ∨ ∃ stop, scan = ScanStop stop.
Proof.
  unfold iteration. destruct (Context.Done ctx); [by left|].
  destruct scan as [line|stop]; [|by eauto].
  case_decide; [done|].
  destruct (Unmarshal_Request line) as [request|]; [|done].
  by destruct (handleRequest s ctx request) as [s' [r|]].
Qed.

(** A pass that goes round again has read a line, has written at most one
    response, and has changed nothing of the server but, upwards, the
    flag. *)
Lemma iteration_Continue (s : Server.t) ctx scan s' written :
  iteration s ctx scan = Continue s' written →
  Context.Done ctx = false
  ∧ (∃ line, scan = ScanLine line)
  ∧ (length written ≤ 1)%nat
  ∧ Server.name s' = Server.name s
  ∧ Server.version s' = Server.version s
  ∧ Server.promptRegistry s' = Server.promptRegistry s
  ∧ Server.protocolVersion s' = Server.protocolVersion s
  ∧ (Server.initialized s = true → Server.initialized s' = true).
Proof.
  unfold iteration. destruct (Context.Done ctx); [done|].
  destruct scan as [line|[stop|]]; [|by destruct (is_io_EOF stop)|done].
  intros Hpass. split; [done|]. split; [by eauto|]. revert Hpass.
  case_decide.
  { intros [= <- <-]. simpl. repeat split; [lia|done]. }
  destruct (Unmarshal_Request line) as [request|].
  2: { intros [= <- <-]. simpl. repeat split; [lia|done]. }
  pose proof (handleRequest_frame s ctx request) as Hframe.
  pose proof (handleRequest_initialized s ctx request) as Hflag.
  destruct (handleRequest s ctx request) as [s1 [r|]]; simpl in *;
    intros [= <- <-]; simpl;
    destruct Hframe as (-> & -> & -> & ->); rewrite Hflag;
    (repeat split; [lia|]); by intros ->.
Qed.

Lemma Run_from_result (fuel : nat) ctx stdin (i : nat) (s : Server.t) out
    s' out' err :
  Run_from fuel ctx stdin i s out = Some (s', out', err) →
  ∃ (k : nat) (written : list JSONRPCResponse.t),
    (k < fuel)%nat
    ∧ (∀ j, (i ≤ j < i + k)%nat →
            Context.Done (ctx j) = false ∧ ∃ line, stdin j = ScanLine line)
    ∧ (Context.Done (ctx (i + k)%nat) = true
       ∨ ∃ stop, stdin (i + k)%nat = ScanStop stop)
    ∧ out' = out ++ written
    ∧ (length written ≤ k)%nat
    ∧ Server.name s' = Server.name s
    ∧ Server.version s' = Server.version s
    ∧ Server.promptRegistry s' = Server.promptRegistry s
    ∧ Server.protocolVersion s' = Server.protocolVersion s
    ∧ (Server.initialized s = true → Server.initialized s' = true).
Proof.
  revert i s out. induction fuel as [|fuel IH]; intros i s out; [done|].
  simpl. destruct (iteration s (ctx i) (stdin i)) as [s1 written|e] eqn:Hpass.
  - intros Hrest.
    apply iteration_Continue in Hpass
      as (Hctx & Hline & Hone & Hn & Hv & Hr & Hp & Hflag).
    apply IH in Hrest
      as (k & written' & Hk & Hlines & Hend & -> & Hlen & Hn' & Hv' & Hr' & Hp'
          & Hflag').
    exists (S k), (written ++ written').
    split; [lia|]. split.
    { intros j Hj. destruct (decide (j = i)) as [->|]; [done|].
      apply Hlines. lia. }
    split; [by replace (i + S k)%nat with (S i + k)%nat by lia|].
    split; [by rewrite app_assoc|].
    split; [rewrite length_app; lia|].
    rewrite Hn', Hv', Hr', Hp'. repeat split; try done.
    intros Hup. by apply Hflag', Hflag.
  - intros [= <- <- <-]. exists O, [].
    split; [lia|]. split; [intros j Hj; lia|].
    split; [rewrite Nat.add_0_r; by apply iteration_Return in Hpass|].
    by rewrite app_nil_r.
Qed.


(** X8. When [Run] returns, it has read some number [k] of lines and the
    pass after them found the context done or the scanner stopped:
    nothing else ends the loop. It has written at most one response per
    line read, and has changed nothing of the server but the flag, which
    it never lowers. *)
Theorem Run_result (fuel : nat) (s : Server.t) ctx stdin s' out err :
  Run fuel s ctx stdin = Some (s', out, err) →
  ∃ k : nat,
    (k < fuel)%nat
    ∧ (∀ j, (j < k)%nat →
            Context.Done (ctx j) = false ∧ ∃ line, stdin j = ScanLine line)
    ∧ (Context.Done (ctx k) = true ∨ ∃ stop, stdin k = ScanStop stop)
    ∧ (length out ≤ k)%nat
    ∧ Server.name s' = Server.name s
    ∧ Server.version s' = Server.version s
    ∧ Server.promptRegistry s' = Server.promptRegistry s
    ∧ Server.protocolVersion s' = Server.protocolVersion s
    ∧ (Server.initialized s = true → Server.initialized s' = true).
Proof.
  intros Hrun. apply Run_from_result in Hrun
    as (k & written & Hk & Hlines & Hend & -> & Hlen & Hframe).
  exists k. split; [done|]. split; [intros j Hj; apply Hlines; lia|].
  by split.
Qed.

(** A pass that reads a line holding a message dispatches it and writes
    the response, if there is one. *)
Lemma Run_from_message
    (fuel : nat) ctx stdin (i : nat) (s : Server.t) out line request :
  Context.Done (ctx i) = false →
  stdin i = ScanLine line →
  line ≠ EmptyString →
  Unmarshal_Request line = Some request →
  Run_from (S fuel) ctx stdin i s out
  = Run_from fuel ctx stdin (S i) (handleRequest s (ctx i) request).1
      (out ++ match (handleRequest s (ctx i) request).2 with
              | Some r => [r]
              | None => []
              end).
Proof.
  intros Hctx Hline Hne Hparse. simpl. unfold iteration.
  rewrite Hctx, Hline, Hparse.
  case_decide; [by destruct line|].
  by destruct (handleRequest s (ctx i) request) as [s' [r|]].
Qed.

(** X9. A session on standard input: three lines that decode to an
    [initialize] request, the [initialized] notification and a
    [prompts/list] request, then the end of the input. [Run] writes two
    responses, the initialize result and then the list of the registered
    prompts, raises the flag, and returns nil. *)
Theorem stdio_session (s : Server.t) ctx (l1 l2 l3 : string) r1 r2 r3 :
  Context.Done ctx = false →
  l1 ≠ EmptyString → l2 ≠ EmptyString → l3 ≠ EmptyString →
  Unmarshal_Request l1 = Some r1 →
  Unmarshal_Request l2 = Some r2 →
  Unmarshal_Request l3 = Some r3 →
  JSONRPCRequest.Method r1 = "initialize" →
  JSONRPCRequest.Params r1 = ANil →
  JSONRPCRequest.Method r2 = "initialized" →
  JSONRPCRequest.Method r3 = "prompts/list" →
  Run 4 s (λ _, ctx) (stdinOf [l1; l2; l3])
  = Some (setInitialized s,
          [JSONRPCResponse.mk "2.0" (JSONRPCRequest.ID r1)
             (Some (ResultInitialize
                (InitializeResult.mk (Server.protocolVersion s)
                   (ServerCapabilities.mk (Some (PromptsCapability.mk false))
                      None)
                   (ServerInfo.mk (Server.name s) (Server.version s)))))
             None;
           JSONRPCResponse.mk "2.0" (JSONRPCRequest.ID r3)
             (Some (ResultListPrompts
                (ListPromptsResult.mk (ListPrompts (Server.promptRegistry s))
                   EmptyString)))
             None],
          None).
Proof.
  intros Hctx Hl1 Hl2 Hl3 Hp1 Hp2 Hp3 Hm1 Hparams Hm2 Hm3.
  unfold Run.
  rewrite (Run_from_message 3 _ _ 0 s [] l1 r1) by done.
  rewrite (Run_from_message 2 _ _ 1 _ _ l2 r2) by done.
  rewrite (Run_from_message 1 _ _ 2 _ _ l3 r3) by done.
  unfold handleRequest, handleInitialize, handlePromptsList.
  rewrite Hm1, Hm2, Hm3, Hparams. simpl.
  unfold iteration. by rewrite Hctx.
Qed.

End LineTransportExtras.

(** * Further properties of the HTTP transport *)

Section HTTPTransportExtras.
Context {range : MapRange} {json : EncodingJSON}.

(** Dispatching a batch changes nothing of the server but, upwards, the
    flag. *)
Lemma dispatchAll_frame (s : Server.t) ctx batch :
  let s' := dispatchAll s ctx batch in
  Server.name s' = Server.name s
  ∧ Server.version s' = Server.version s
  ∧ Server.promptRegistry s' = Server.promptRegistry s
  ∧ Server.protocolVersion s' = Server.protocolVersion s
  ∧ (Server.initialized s = true → Server.initialized s' = true).
Proof.
  revert s. induction batch as [|request batch IH]; intros s; [done|].
  unfold dispatchAll in *. simpl.
  destruct (IH (handleRequest s ctx request).1) as (-> & -> & -> & -> & Hflag).
  destruct (handleRequest_frame s ctx request) as (-> & -> & -> & ->).
  repeat split. intros Hup. apply Hflag.
  by rewrite handleRequest_initialized, Hup.
Qed.

(** The entries of a batch response have ids. *)
Lemma answers_have_ids (s : Server.t) ctx batch :
  Forall (λ r, isNil (JSONRPCResponse.ID r) = false) (answers s ctx batch).
Proof.
  revert s. induction batch as [|request batch IH]; intros s; simpl; [done|].
  pose proof (handleRequest_ID s ctx request) as Hecho.
  destruct (handleRequest s ctx request) as [s' [r|]]; simpl in *; [|done].
  destruct (isNil (JSONRPCRequest.ID request)) eqn:Hid; [done|].
  constructor; [|done]. by rewrite (Hecho r).
Qed.

(** [handleBatchRequest] through the reading of its loop. *)
Lemma handleBatchRequest_loop (w : ResponseWriter.t) (s : Server.t) ctx batch :
  handleBatchRequest w s ctx batch
  = (dispatchAll s ctx batch,
     if existsb hasID batch
     then ResponseWriter.Write (WrittenResponses (answers s ctx batch))
            (ResponseWriter.Set_ "Content-Type" "application/json" w)
     else ResponseWriter.WriteHeader 202 w).
Proof.
  unfold handleBatchRequest. rewrite batch_loop. simpl.
  by destruct (existsb hasID batch).
Qed.

(** X10. The status of the HTTP response, for a request of any method and
    any body. It is 405 exactly for a method other than GET and POST; 400
    exactly for a POST whose body cannot be read or decodes neither as a
    message nor as a batch; 202 exactly for a POST whose body is a message
    without id, or a batch (tried only when the body is not a message)
    none of whose elements has an id; and 200 in every other case. *)
Theorem http_status (s : Server.t) (r : Request.t) :
  let status :=
    ResponseWriter.StatusCode (HTTPHandler s ResponseWriter.new r).2 in
  (status = 405 ↔ Request.Method r ≠ "GET" ∧ Request.Method r ≠ "POST")
  ∧ (status = 400
     ↔ Request.Method r = "POST"
       ∧ match Request.Body r with
         | inr _ => True
         | inl body =>
             Unmarshal_Request body = None ∧ Unmarshal_Batch body = None
         end)
  ∧ (status = 202
     ↔ Request.Method r = "POST"
       ∧ match Request.Body r with
         | inr _ => False
         | inl body =>
             match Unmarshal_Request body with
             | Some request => isNil (JSONRPCRequest.ID request) = true
             | None =>
                 match Unmarshal_Batch body with
                 | Some batch => existsb hasID batch = false
                 | None => False
                 end
             end
         end)
  ∧ (status = 200 ∨ status = 202 ∨ status = 400 ∨ status = 405).
Proof.
  unfold HTTPHandler, handleJSONRPC.
  destruct (decide (Request.Method r = "GET")) as [Hget|Hget].
  { writer. rewrite Hget. repeat split; try done; try (intuition congruence). }
  destruct (decide (Request.Method r = "POST")) as [Hpost|Hpost].
  2: { writer. repeat split; try done; try (intuition congruence). }
  destruct (Request.Body r) as [body|failure].
  2: { writer. repeat split; try done; try (intuition congruence). }
  destruct (Unmarshal_Request body) as [request|].
  - unfold handleSingleRequest.
    destruct (handleRequest s (Request.Ctx r) request) as [s' [response|]],
      (isNil (JSONRPCRequest.ID request));
      writer; repeat split; try done; try (intuition congruence).
  - destruct (Unmarshal_Batch body) as [batch|].
    + rewrite handleBatchRequest_loop.
      destruct (existsb hasID batch);
        writer; repeat split; try done; try (intuition congruence).
    + writer. repeat split; try done; try (intuition congruence).
Qed.

(** X11. The HTTP transport answers no message that has no id: unless the
    status is 400 (where the one response is the parse error, whose id is
    nil), every JSON-RPC response written to the body has an id. *)
Theorem http_answers_have_ids (s : Server.t) (r : Request.t) :
  let w := (HTTPHandler s ResponseWriter.new r).2 in
  ResponseWriter.StatusCode w = 400
  ∨ Forall (λ response, isNil (JSONRPCResponse.ID response) = false)
           (writtenResponses w).
Proof.
  unfold HTTPHandler, handleJSONRPC.
  repeat case_decide; [by right|..|by right].
  destruct (Request.Body r) as [body|failure]; [|by left].
  destruct (Unmarshal_Request body) as [request|].
  - right. unfold handleSingleRequest.
    pose proof (handleRequest_ID s (Request.Ctx r) request) as Hecho.
    destruct (handleRequest s (Request.Ctx r) request) as [s' [response|]],
      (isNil (JSONRPCRequest.ID request)) eqn:Hid; writer; try done.
    constructor; [|done]. by rewrite (Hecho response).
  - destruct (Unmarshal_Batch body) as [batch|]; [|by left].
    right. rewrite handleBatchRequest_loop.
    destruct (existsb hasID batch); writer; [|done].
    rewrite app_nil_r. apply answers_have_ids.
Qed.

(** X12. A POST whose body decodes as one message dispatches it. Without
    id the response is 202 with no body, whatever the dispatcher answered;
    with an id it is 200 with the content type [application/json] and the
    dispatcher's response as body, or no body at all when the method is
    [initialized]. *)
Theorem http_single_message (s : Server.t) (r : Request.t) body request :
  Request.Method r = "POST" →
  Request.Body r = inl body →
  Unmarshal_Request body = Some request →
  let '(s', w) := HTTPHandler s ResponseWriter.new r in
  let dispatched := handleRequest s (Request.Ctx r) request in
  s' = dispatched.1
  ∧ if isNil (JSONRPCRequest.ID request)
    then ResponseWriter.StatusCode w = 202 ∧ ResponseWriter.Body w = []
    else ResponseWriter.StatusCode w = 200
         ∧ ResponseWriter.Header w !! "Content-Type" = Some "application/json"
         ∧ ResponseWriter.Body w
           = match dispatched.2 with
             | Some response => [WrittenResponse response]
             | None => []
             end.
Proof.
  intros Hmethod Hbody Hparse.
  unfold HTTPHandler, handleJSONRPC. rewrite Hmethod, Hbody, Hparse. simpl.
  unfold handleSingleRequest.
  by destruct (handleRequest s (Request.Ctx r) request) as [s' [response|]],
    (isNil (JSONRPCRequest.ID request)).
Qed.

(** X13. No HTTP request changes the name, the version, the protocol
    version or the registry of the server, and none lowers the flag. A
    request that is not a POST, and a POST whose body is rejected with
    400, leave the server as it is. *)
Theorem http_server_frame (s : Server.t) (w : ResponseWriter.t) (r : Request.t) :
  let s' := (HTTPHandler s w r).1 in
  Server.name s' = Server.name s
  ∧ Server.version s' = Server.version s
  ∧ Server.promptRegistry s' = Server.promptRegistry s
  ∧ Server.protocolVersion s' = Server.protocolVersion s
  ∧ Server.initialized s' = Server.initialized s || Server.initialized s'
  ∧ (if decide (Request.Method r = "POST")
     then match Request.Body r with
          | inr _ => s' = s
          | inl body =>
              match Unmarshal_Request body, Unmarshal_Batch body with
              | None, None => s' = s
              | _, _ => True
              end
          end
     else s' = s).
Proof.
  unfold HTTPHandler, handleJSONRPC.
  destruct (decide (Request.Method r = "GET")) as [Hget|Hget].
  { rewrite Hget. simpl. by rewrite orb_diag. }
  destruct (decide (Request.Method r = "POST")) as [Hpost|Hpost];
    [|simpl; by rewrite orb_diag].
  destruct (Request.Body r) as [body|failure]; [|simpl; by rewrite orb_diag].
  destruct (Unmarshal_Request body) as [request|].
  - unfold handleSingleRequest.
    pose proof (handleRequest_frame s (Request.Ctx r) request) as Hframe.
    pose proof (handleRequest_initialized s (Request.Ctx r) request) as Hflag.
    destruct (handleRequest s (Request.Ctx r) request) as [s' response].
    simpl in *. destruct Hframe as (Hn & Hv & Hr & Hp).
    assert (Server.initialized s' = Server.initialized s || Server.initialized s')
      by (rewrite Hflag; by destruct (Server.initialized s)).
    by destruct (isNil (JSONRPCRequest.ID request)), response.
  - destruct (Unmarshal_Batch body) as [batch|]; [|simpl; by rewrite orb_diag].
    rewrite handleBatchRequest_loop. simpl.
    destruct (dispatchAll_frame s (Request.Ctx r) batch)
      as (-> & -> & -> & -> & Hflag).
    repeat split.
    destruct (Server.initialized s); [by rewrite Hflag|done].
Qed.

End HTTPTransportExtras.

(** * Properties of the loader *)

Section StringSearch.
Implicit Types s sub a b : string.


Lemma append_assoc a b s : (a +:+ b) +:+ s = a +:+ b +:+ s.
Proof. induction a as [|c a IH]; [done|]. exact (f_equal (String c) IH). Qed.

Lemma sliceFrom_append a b (n : nat) :
  sliceFrom (String.length a + n) (a +:+ b) = sliceFrom n b.
Proof. induction a as [|c a IH]; simpl; done. Qed.


Lemma sliceTo_length a b : sliceTo (String.length a) (a +:+ b) = a.
Proof. induction a as [|c a IH]; simpl; [by destruct b|]. by rewrite IH. Qed.


(** The search either finds no instance, or stops at the first one. *)
Lemma indexFrom_cases (i : Z) s sub :
  (indexFrom i s sub = -1 ∧ ∀ a, ¬ occursAt sub s a)
  ∨ ∃ a, occursAt sub s a
         ∧ (∀ a', occursAt sub s a' → (String.length a ≤ String.length a')%nat)
         ∧ indexFrom i s sub = i + Z.of_nat (String.length a).
Proof.
  revert i. induction s as [|c s IH]; intros i.
  - cbn [indexFrom]. destruct (HasPrefix EmptyString sub) eqn:Hprefix.
    + right. exists EmptyString. split; [by apply occursAt_start|].
      split; [intros a' _; simpl; lia|simpl; lia].
    + left. split; [done|]. intros a [b Hb].
      destruct a; [|done]. simpl in Hb.
      assert (HasPrefix EmptyString sub = true)
        by (apply HasPrefix_true; by exists b).
      congruence.
  - cbn [indexFrom]. destruct (HasPrefix (String c s) sub) eqn:Hprefix.
    + right. exists EmptyString. split; [by apply occursAt_start|].
      split; [intros a' _; simpl; lia|simpl; lia].
    + destruct (IH (i + 1)) as [[Hnone Habsent]|(a & Hocc & Hfirst & Hindex)].
      * left. split; [done|]. intros [|c' a] Hocc.
        -- apply occursAt_start in Hocc. congruence.
        -- apply occursAt_String in Hocc as [_ Hocc]. by apply (Habsent a).
      * right. exists (String c a). split; [by apply occursAt_String|].
        split.
        -- intros [|c' a'] Hocc'.
           ++ apply occursAt_start in Hocc'. congruence.
           ++ apply occursAt_String in Hocc' as [_ Hocc'].
              apply Hfirst in Hocc'. simpl. lia.
        -- rewrite Hindex. simpl String.length. lia.
Qed.

(** [Index] is -1 exactly when there is no instance. *)
Lemma Index_absent s sub :
  Index s sub = -1 ↔ ∀ a, ¬ occursAt sub s a.
Proof.
  unfold Index.
  destruct (indexFrom_cases 0 s sub) as [[Hnone Habsent]|(a & Hocc & _ & Hindex)];
    [done|].
  split; [lia|]. intros Habsent. by destruct (Habsent a).
Qed.

(** [Index] is the offset of the first instance. *)
Lemma Index_first s sub a :
  occursAt sub s a →
  (∀ a', occursAt sub s a' → (String.length a ≤ String.length a')%nat) →
  Index s sub = Z.of_nat (String.length a).
Proof.
  intros Hocc Hfirst. unfold Index.
  destruct (indexFrom_cases 0 s sub)
    as [[_ Habsent]|(a' & Hocc' & Hfirst' & ->)].
  - by destruct (Habsent a).
  - apply Hfirst in Hocc'. apply Hfirst' in Hocc. lia.
Qed.

(** An instance found splits the string at its first instance. *)
Lemma Index_found s sub :
  Index s sub ≠ -1 →
  ∃ a b, s = a +:+ sub +:+ b
         ∧ (∀ a', occursAt sub s a' → (String.length a ≤ String.length a')%nat)
         ∧ Index s sub = Z.of_nat (String.length a).
Proof.
  intros Hfound. unfold Index in *.
  destruct (indexFrom_cases 0 s sub)
    as [[Hnone _]|(a & [b Hb] & Hfirst & Hindex)]; [done|].
  exists a, b. by rewrite Hindex.
Qed.

End StringSearch.

Section MarkdownPrompts.
Context {libraries : LoaderLibraries}.

Lemma sliceFrom_delimiter (s : string) : sliceFrom 3 ("+++" +:+ s) = s.
Proof. by destruct s. Qed.

(** The two slices [parseMarkdownPrompt] takes, when the closing delimiter
    is found right behind [fm]. *)
Lemma markdown_slices (fm rest : string) :
  let content := "+++" +:+ fm +:+ "+++" +:+ rest in
  let endIndex := Z.of_nat (String.length fm) + 3 in
  slice 3 (Z.to_nat endIndex) content = fm
  ∧ sliceFrom (Z.to_nat (endIndex + 3)) content = rest.
Proof.
  simpl.
  assert ("+++" +:+ fm +:+ "+++" +:+ rest = ("+++" +:+ fm) +:+ "+++" +:+ rest)
    as -> by (by rewrite append_assoc).
  assert (String.length ("+++" +:+ fm) = Z.to_nat (Z.of_nat (String.length fm) + 3))
    as Hlen by (rewrite length_append; simpl; lia).
  split.
  - unfold slice. rewrite <- Hlen, sliceTo_length. apply sliceFrom_delimiter.
  - replace (Z.to_nat (Z.of_nat (String.length fm) + 3 + 3))
      with (String.length ("+++" +:+ fm) + 3)%nat by lia.
    rewrite sliceFrom_append. apply sliceFrom_delimiter.
Qed.

(** [parseMarkdownPrompt] on a file whose first closing delimiter is right
    behind [fm]. *)
Lemma parseMarkdownPrompt_split (fm rest : string) :
  (∀ a, occursAt "+++" (fm +:+ "+++" +:+ rest) a →
        (String.length fm ≤ String.length a)%nat) →
  parseMarkdownPrompt ("+++" +:+ fm +:+ "+++" +:+ rest)
  = match toml_Unmarshal fm with
    | (_, Some err) =>
        (zeroDefinition, Some (Errorf_w "failed to parse frontmatter: " err))
    | (def, None) => (setContent def (TrimSpace rest), None)
    end.
Proof.
  intros Hfirst. unfold parseMarkdownPrompt.
  assert (HasPrefix ("+++" +:+ fm +:+ "+++" +:+ rest) "+++" = true) as ->
    by (apply HasPrefix_true; by eexists).
  simpl negb. cbv iota.
  rewrite sliceFrom_delimiter.
  rewrite (Index_first _ _ fm) by (done || by exists rest).
  case_decide; [lia|].
  destruct (markdown_slices fm rest) as [-> ->]. done.
Qed.

(** X14. [parseMarkdownPrompt] succeeds exactly on a file that starts with
    the delimiter [+++] and holds it a second time, with a front matter
    between the first two delimiters that the TOML decoder accepts. The
    definition is the decoded front matter with its content replaced by
    the trimmed text behind the second delimiter: the search for the
    closing delimiter stops at its first instance, and a content the front
    matter sets is discarded. *)
Theorem parseMarkdownPrompt_success (data : string) (def : PromptDefinition.t) :
  parseMarkdownPrompt data = (def, None)
  ↔ ∃ (fm rest : string) (decoded : PromptDefinition.t),
      data = "+++" +:+ fm +:+ "+++" +:+ rest
      ∧ (∀ a, occursAt "+++" (fm +:+ "+++" +:+ rest) a →
              (String.length fm ≤ String.length a)%nat)
      ∧ toml_Unmarshal fm = (decoded, None)
      ∧ def = setContent decoded (TrimSpace rest).
Proof.
  split.
  - intros Hparse.
    destruct (HasPrefix data "+++") eqn:Hprefix.
    2: { unfold parseMarkdownPrompt in Hparse. by rewrite Hprefix in Hparse. }
    apply HasPrefix_true in Hprefix as [tail ->].
    destruct (decide (Index tail "+++" = -1)) as [Hnone|Hfound].
    { unfold parseMarkdownPrompt in Hparse.
      rewrite sliceFrom_delimiter, Hnone in Hparse.
      by destruct (HasPrefix ("+++" +:+ tail) "+++"). }
    apply Index_found in Hfound as (fm & rest & -> & Hfirst & _).
    rewrite parseMarkdownPrompt_split in Hparse by done.
    destruct (toml_Unmarshal fm) as [decoded [err|]] eqn:Hdecode; [done|].
    injection Hparse as <-. by exists fm, rest, decoded.
  - intros (fm & rest & decoded & -> & Hfirst & Hdecode & ->).
    rewrite parseMarkdownPrompt_split by done. by rewrite Hdecode.
Qed.

(** X15. How [parseMarkdownPrompt] fails. The error is [markdown file must
    start with +++ frontmatter delimiter] exactly when the file does not
    start with [+++], and [missing closing +++ delimiter for frontmatter]
    exactly when it does and holds no further [+++]. Whenever it fails,
    the definition it returns is the zero one. *)
Theorem parseMarkdownPrompt_failure (data : string) :
  (parseMarkdownPrompt data
   = (zeroDefinition,
      Some (errorString
              "markdown file must start with +++ frontmatter delimiter"))
   ↔ HasPrefix data "+++" = false)
  ∧ (parseMarkdownPrompt data
     = (zeroDefinition,
        Some (errorString "missing closing +++ delimiter for frontmatter"))
     ↔ ∃ tail, data = "+++" +:+ tail ∧ ∀ a, ¬ occursAt "+++" tail a)
  ∧ (∀ def err, parseMarkdownPrompt data = (def, Some err) →
                def = zeroDefinition).
Proof.
  split; [|split].
  - unfold parseMarkdownPrompt.
    destruct (HasPrefix data "+++"); simpl; [|done].
    split; [|done].
    case_decide; [done|].
    by destruct (toml_Unmarshal _) as [decoded [err|]].
  - split.
    + intros Hparse.
      destruct (HasPrefix data "+++") eqn:Hprefix.
      2: { unfold parseMarkdownPrompt in Hparse.
           by rewrite Hprefix in Hparse. }
      apply HasPrefix_true in Hprefix as [tail ->].
      exists tail. split; [done|]. apply Index_absent.
      destruct (decide (Index tail "+++" = -1)) as [|Hfound]; [done|].
      apply Index_found in Hfound as (fm & rest & -> & Hfirst & _).
      rewrite parseMarkdownPrompt_split in Hparse by done.
      by destruct (toml_Unmarshal fm) as [decoded [err|]].
    + intros (tail & -> & Habsent). apply Index_absent in Habsent.
      unfold parseMarkdownPrompt.
      assert (HasPrefix ("+++" +:+ tail) "+++" = true) as ->
        by (apply HasPrefix_true; by eexists).
      simpl negb. cbv iota. by rewrite sliceFrom_delimiter, Habsent.
  - intros def err. unfold parseMarkdownPrompt.
    destruct (HasPrefix data "+++"); simpl; [|by intros [= <- _]].
    case_decide; [by intros [= <- _]|].
    destruct (toml_Unmarshal _) as [decoded [failure|]]; [|done].
    by intros [= <- _].
Qed.

End MarkdownPrompts.

Section Extensions.
Implicit Types path stem e : string.





End Extensions.

Section LoadingPrompts.
Context {libraries : LoaderLibraries}.


(** The callback on an entry that loads. *)
Lemma walkFn_loads (definitions : list PromptDefinition.t) (entry : WalkEntry.t) :
  loads entry →
  walkFn definitions entry
  = (if isPromptFile entry then definitions ++ [(parseFile entry).1]
     else definitions, None).
Proof.
  intros [Herr Hfile]. destruct entry as [path err dir [data failure]].
  unfold walkFn, isPromptFile, parseFile in *. simpl in *. subst err.
  destruct dir; simpl in *; [done|].
  repeat case_bool_decide; simpl in *; try done; try congruence.
  all: destruct Hfile as [-> Hparse]; [done|].
  all: repeat case_decide; try congruence.
  all: try (destruct (toml_Unmarshal data) as [def fail]; simpl in *;
            by subst fail).
  all: try (destruct (parseMarkdownPrompt data) as [def fail]; simpl in *;
            by subst fail).
Qed.

Lemma WalkDir_loads (definitions : list PromptDefinition.t)
    (entries : list WalkEntry.t) :
  Forall loads entries →
  WalkDir definitions entries
  = (definitions
     ++ map (λ entry, (parseFile entry).1) (List.filter isPromptFile entries),
     None).
Proof.
  intros Hloads. revert definitions.
  induction Hloads as [|entry entries Hentry _ IH]; intros definitions; simpl.
  - by rewrite app_nil_r.
  - rewrite walkFn_loads by done. rewrite IH.
    destruct (isPromptFile entry); simpl; [|done].
    by rewrite <- app_assoc.
Qed.


(** X17. When every walked entry comes without an error and every prompt
    file among them is read and decoded without error, the loader returns
    one definition per prompt file, in the order of the walk, and no
    error; a markdown file gives the definition [parseMarkdownPrompt]
    makes of it, a TOML file the one the TOML decoder makes of it. *)
Theorem LoadPromptsFromTOML_success (entries : list WalkEntry.t) :
  Forall loads entries →
  LoadPromptsFromTOML entries
  = (map (λ entry, (parseFile entry).1) (List.filter isPromptFile entries),
     None).
Proof.
  intros Hloads. unfold LoadPromptsFromTOML. by rewrite WalkDir_loads.
Qed.


End LoadingPrompts.

(** * Further properties of the default handler *)

Section UnusedArguments.
Context {range : MapRange}.

(** Replacing what does not occur changes nothing. *)
Lemma ReplaceAll_absent (s old new : string) :
  (∀ a, ¬ occursAt old s a) → ReplaceAll s old new = s.
Proof.
  intros Habsent.
  destruct (decide (old = EmptyString)) as [->|Hold]; [done|].
  apply (ReplacedAll_unique old new s).
  - by apply ReplaceAll_ReplacedAll.
  - by apply ReplacedAll_none.
Qed.

Lemma substitute_absent (entries : list (string * string)) (content : string) :
  (∀ name value, (name, value) ∈ entries →
                 ∀ a, ¬ occursAt (placeholder name) content a) →
  substitute content entries = content.
Proof.
  induction entries as [|[name value] entries IH]; intros Habsent; [done|].
  change (substitute content ((name, value) :: entries))
    with (substitute (ReplaceAll content (placeholder name) value) entries).
  rewrite ReplaceAll_absent by (apply (Habsent name value); by left).
  apply IH. intros name' value' Hin. apply (Habsent name' value'). by right.
Qed.

(** X19. Arguments the template does not use are ignored: when the
    content is not empty and holds the placeholder of none of the supplied
    arguments, the handler returns the content as it is, whatever the
    values and whatever the order of the map. In particular a content
    without placeholders is returned as it is for every argument map. *)
Theorem unused_arguments_ignored
    (d : PromptDefinition.t) ctx (args : gmap string string) :
  PromptDefinition.Content d ≠ EmptyString →
  (∀ name value, args !! name = Some value →
                 ∀ a, ¬ occursAt (placeholder name) (PromptDefinition.Content d) a) →
  CreateHandler d ctx args
  = (Some (GetPromptResult.mk (PromptDefinition.Description d)
             [PromptMessage.mk "user"
                (MessageContent.mk "text" (PromptDefinition.Content d))]),
     None).
Proof.
  intros Hcontent Habsent. unfold CreateHandler.
  case_decide; [done|].
  rewrite substitute_absent; [done|].
  intros name value Hin. apply (Habsent name value).
  apply elem_of_map_to_list. by rewrite <- (rangeOrder_perm _ args).
Qed.

End UnusedArguments.

(** * Instances of the further properties *)

(** The greeting prompt is registered twice; after the handshake
    [prompts/get] runs the handler registered last. *)
Lemma prompts_get_runs_last_registration_witness :
  let history :=
    CallRegisterPrompt (Prompt.mk "greeting" "First" [])
      (λ _ _, (None, Some (errorString "handler not implemented")))
    :: CallRegisterPrompt (Prompt.mk "greeting" "A greeting prompt" [])
         greetingHandler
    :: handshake in
  let s := calls testServer history in
  handleRequest s background
    (requestOf "1" "prompts/get"
       (AObject [("name", AString "greeting");
                 ("arguments", AObject [("name", AString "World")])]))
  = (s, Some (JSONRPCResponse.mk "2.0" (AString "1")
                (Some (ResultGetPrompt (Some
                   (GetPromptResult.mk "Greeting message"
                      [PromptMessage.mk "user"
                         (MessageContent.mk "text" "Hello, World")]))))
                None)).
Proof.
  exact (prompts_get_runs_last_registration "test-server" "1.0.0"
           (CallRegisterPrompt (Prompt.mk "greeting" "First" [])
              (λ _ _, (None, Some (errorString "handler not implemented")))
            :: CallRegisterPrompt (Prompt.mk "greeting" "A greeting prompt" [])
                 greetingHandler
            :: handshake)
           background
           (requestOf "1" "prompts/get"
              (AObject [("name", AString "greeting");
                        ("arguments", AObject [("name", AString "World")])]))
           (GetPromptParams.mk "greeting" {["name" := "World"]})
           eq_refl eq_refl eq_refl).
Defined.

(** One registered prompt is listed after the handshake. *)
Lemma prompts_list_result_witness :
  let history :=
    CallRegisterPrompt (Prompt.mk "p" "A prompt" []) greetingHandler
    :: handshake in
  let s := calls testServer history in
  ∃ prompts : list Prompt.t,
    handleRequest s background (requestOf "1" "prompts/list" ANil)
    = (s, Some (JSONRPCResponse.mk "2.0" (AString "1")
                  (Some (ResultListPrompts
                     (ListPromptsResult.mk prompts EmptyString)))
                  None))
    ∧ NoDup (Prompt.Name <$> prompts)
    ∧ ∀ prompt, prompt ∈ prompts
        ↔ fst <$> registeredAs (Prompt.Name prompt) history = Some prompt.
Proof.
  exact (prompts_list_result "test-server" "1.0.0"
           (CallRegisterPrompt (Prompt.mk "p" "A prompt" []) greetingHandler
            :: handshake)
           background (requestOf "1" "prompts/list" ANil) eq_refl eq_refl).
Defined.


Lemma Run_result_witness :
  ∃ k : nat,
    (k < 2)%nat
    ∧ (∀ j, (j < k)%nat →
            Context.Done background = false
            ∧ ∃ line, stdinOf ["not json"] j = ScanLine line)
    ∧ (Context.Done background = true
       ∨ ∃ stop, stdinOf ["not json"] k = ScanStop stop)
    ∧ (length [errorResponse ANil (-32700) "Parse error" ANil] ≤ k)%nat
    ∧ Server.name testServer = Server.name testServer
    ∧ Server.version testServer = Server.version testServer
    ∧ Server.promptRegistry testServer = Server.promptRegistry testServer
    ∧ Server.protocolVersion testServer = Server.protocolVersion testServer
    ∧ (Server.initialized testServer = true →
       Server.initialized testServer = true).
Proof.
  apply (Run_result 2 testServer (λ _, background) (stdinOf ["not json"])
           testServer [errorResponse ANil (-32700) "Parse error" ANil] None).
  reflexivity.
Defined.

(** The handshake and a [prompts/list] request on standard input. *)
Lemma stdio_session_witness :
  Run (json := SessionJSON.codec) 4 testServer (λ _, background)
    (stdinOf [SessionJSON.requestLine "1" "initialize";
              ExactKeyJSON.notificationLine "initialized";
              SessionJSON.requestLine "2" "prompts/list"])
  = Some (setInitialized testServer,
          [JSONRPCResponse.mk "2.0" (AString "1")
             (Some (ResultInitialize
                (InitializeResult.mk "2025-03-26"
                   (ServerCapabilities.mk (Some (PromptsCapability.mk false))
                      None)
                   (ServerInfo.mk "test-server" "1.0.0"))))
             None;
           JSONRPCResponse.mk "2.0" (AString "2")
             (Some (ResultListPrompts
                (ListPromptsResult.mk
                   (ListPrompts (Server.promptRegistry testServer))
                   EmptyString)))
             None],
          None).
Proof.
  apply (stdio_session (json := SessionJSON.codec) testServer background
           (SessionJSON.requestLine "1" "initialize")
           (ExactKeyJSON.notificationLine "initialized")
           (SessionJSON.requestLine "2" "prompts/list")
           (requestOf "1" "initialize" ANil)
           (notification "initialized")
           (requestOf "2" "prompts/list" ANil));
    first [reflexivity | discriminate].
Defined.

(** A POST of the [initialized] notification: 202, no body, and the flag
    is raised. *)
Lemma http_single_message_witness :
  let r := Request.mk "POST"
             (inl (ExactKeyJSON.notificationLine "initialized")) background in
  let '(s', w) := HTTPHandler testServer ResponseWriter.new r in
  let dispatched :=
    handleRequest testServer background (notification "initialized") in
  s' = dispatched.1
  ∧ if isNil (JSONRPCRequest.ID (notification "initialized"))
    then ResponseWriter.StatusCode w = 202 ∧ ResponseWriter.Body w = []
    else ResponseWriter.StatusCode w = 200
         ∧ ResponseWriter.Header w !! "Content-Type" = Some "application/json"
         ∧ ResponseWriter.Body w
           = match dispatched.2 with
             | Some response => [WrittenResponse response]
             | None => []
             end.
Proof.
  exact (http_single_message testServer
           (Request.mk "POST"
              (inl (ExactKeyJSON.notificationLine "initialized")) background)
           (ExactKeyJSON.notificationLine "initialized")
           (notification "initialized") eq_refl eq_refl eq_refl).
Defined.

(** A walk over a directory, a markdown prompt and a text file loads the
    one prompt. *)
Lemma LoadPromptsFromTOML_success_witness :
  LoadPromptsFromTOML
    [WalkEntry.mk "prompts" None true
       (EmptyString, Some (errorString "is a directory"));
     WalkEntry.mk "prompts/greeting.md" None false
       (SampleLoader.greetingFile, None);
     WalkEntry.mk "prompts/readme.txt" None false ("notes", None)]
  = ([PromptDefinition.mk "greeting" EmptyString [] "Hello, {{name}}!"], None).
Proof.
  refine (eq_trans
            (LoadPromptsFromTOML_success
               [WalkEntry.mk "prompts" None true
                  (EmptyString, Some (errorString "is a directory"));
                WalkEntry.mk "prompts/greeting.md" None false
                  (SampleLoader.greetingFile, None);
                WalkEntry.mk "prompts/readme.txt" None false ("notes", None)]
               _) _).
  - repeat first [apply List.Forall_nil | apply List.Forall_cons];
      (split; [reflexivity|]); intros Hfile;
      first [vm_compute in Hfile; discriminate Hfile | split; reflexivity].
  - reflexivity.
Defined.


(** A static prompt is returned as it is when an argument is supplied. *)
Lemma unused_arguments_ignored_witness :
  CreateHandler
    (PromptDefinition.mk "static" "Static prompt" [] "This is a static message.")
    background {["name" := "Alice"]}
  = (Some (GetPromptResult.mk "Static prompt"
             [PromptMessage.mk "user"
                (MessageContent.mk "text" "This is a static message.")]),
     None).
Proof.
  apply (unused_arguments_ignored
           (PromptDefinition.mk "static" "Static prompt" []
              "This is a static message.")
           background {["name" := "Alice"]}).
  - discriminate.
  - intros name value Hlookup.
    apply lookup_singleton_Some in Hlookup as [<- _].
    apply Index_absent. reflexivity.
Defined.
